(** * SigMOS audio-quality service: the request pipeline of [sigmos_api.py]

    A shallow embedding of the Flask service in [src/sigmos_api.py]:
    the upload-name check [allowed_file], the orchestrator
    [evaluate_audio_file] and the handlers [health_check],
    [evaluate_uploaded_file] and [evaluate_file_path]. The body of a
    request to [/evaluate_path] is whatever JSON value
    [request.get_json()] returns ([json]), or the framework's abort.

    Python strings are byte strings in UTF-8 ([string]); dictionaries that
    are built in a fixed order ([OrderedDict], dict literals) are
    association lists; the set [ALLOWED_EXTENSIONS] is a [gset string];
    the upload directory and the rest of the file system is a
    [gmap string (list Byte.byte)]. *)

From Stdlib Require Import Ascii ZArith QArith.
From stdpp Require Import gmap strings list pretty.

(** ** Python exceptions and results *)

(** An exception: its class name and [str(e)]. *)
Record exn : Type := Exn {
  exn_type : string;
  exn_str : string
}.

(** A pure computation that returns or raises. *)
Definition res (A : Type) : Type := exn + A.

Definition res_bind {A B : Type} (c : res A) (k : A → res B) : res B :=
  match c with
  | inl e => inl e
  | inr a => k a
  end.

Definition IndexError : exn :=
  Exn "IndexError" "list index out of range".

(** ** Strings *)

Module Str.

(** [sub in s] on [str]: substring test. *)
Fixpoint contains (s sub : string) : bool :=
  if String.prefix sub s then true
  else match s with
       | EmptyString => false
       | String _ s' => contains s' sub
       end.

Fixpoint snoc (s : string) (c : ascii) : string :=
  match s with
  | EmptyString => String c EmptyString
  | String a s' => String a (snoc s' c)
  end.

Fixpoint rev (s : string) : string :=
  match s with
  | EmptyString => EmptyString
  | String a s' => snoc (rev s') a
  end.

(** The scan of [str.rsplit(sep, 1)]: it walks from the right end of the
    string; [r] is what is left to visit (rightmost character first) and
    [acc] the characters already passed, in their order. *)
Fixpoint rscan (sep : ascii) (r acc : string) : option (string * string) :=
  match r with
  | EmptyString => None
  | String c r' =>
      if Ascii.eqb c sep then Some (rev r', acc)
      else rscan sep r' (String c acc)
  end.

(** [s.rsplit(sep, 1)] for a one-character separator. *)
Definition rsplit1 (sep : ascii) (s : string) : list string :=
  match rscan sep (rev s) EmptyString with
  | None => [s]
  | Some (before, after) => [before; after]
  end.

(** [l[i]] on a list. *)
Definition index {A : Type} (l : list A) (i : nat) : res A :=
  match l !! i with
  | Some x => inr x
  | None => inl IndexError
  end.

Definition lower_ascii (c : ascii) : ascii :=
  let n := N_of_ascii c in
  if ((65 <=? n) && (n <=? 90))%N then ascii_of_N (n + 32) else c.

(** [s.lower()], on the UTF-8 bytes: the letters A-Z are lowered, the
    bytes of other characters are kept. Python also lowers letters
    outside ASCII, but to characters outside ASCII again, the Kelvin sign
    apart (to k); the allow-list is ASCII without a k, so membership of
    the lowered extension is the same. *)
Fixpoint lower (s : string) : string :=
  match s with
  | EmptyString => EmptyString
  | String c s' => String (lower_ascii c) (lower s')
  end.

(** [sep.join(l)]. *)
Fixpoint join (sep : string) (l : list string) : string :=
  match l with
  | [] => EmptyString
  | [x] => x
  | x :: l' => x +:+ sep +:+ join sep l'
  end.

(** The part of a string after its last [c], and the part before it,
    found from the left; [None] when the string has no [c]. *)
Fixpoint split_last (c : ascii) (s : string) : option (string * string) :=
  match s with
  | EmptyString => None
  | String a s' =>
      match split_last c s' with
      | Some (p, t) => Some (String a p, t)
      | None => if Ascii.eqb a c then Some (EmptyString, s') else None
      end
  end.

Definition after_last (c : ascii) (s : string) : option string :=
  snd <$> split_last c s.

End Str.

(** ** Configuration ([sigmos_api.py], lines 26-28) *)

Definition UPLOAD_FOLDER : string := "uploads".
Definition ALLOWED_EXTENSIONS : gset string := {[ "wav"; "mp3"; "flac"; "m4a" ]}.

(** [allowed_file(filename)]: the conjunction short-circuits, so the
    indexing is only reached when the name has a dot. *)
Definition allowed_file (filename : string) : res bool :=
  if Str.contains filename "." then
    res_bind (Str.index (Str.rsplit1 "."%char filename) 1) (λ ext,
      inr (bool_decide (Str.lower ext ∈ ALLOWED_EXTENSIONS)))
  else inr false.

(** The extension of a file name as the specification words it: the part
    after the last dot, lowercased, in the allow-list. *)
Definition has_allowed_extension (filename : string) : Prop :=
  ∃ ext, Str.after_last "."%char filename = Some ext
         ∧ Str.lower ext ∈ ALLOWED_EXTENSIONS.

(** ** The Python runtime and the libraries the service calls

    What the service takes from outside [sigmos_api.py]: float arithmetic
    ([/] on two ints, the builtin [round]), [traceback.format_exc],
    werkzeug's [secure_filename], soundfile's [sf.read] as a decoder of the
    bytes found at a path, and the order in which this process iterates
    over the set [ALLOWED_EXTENSIONS]. *)

Definition bytes : Type := list Byte.byte.

(** A numpy array as [sf.read] returns it: shape [(frames,)] for a
    one-channel source, shape [(frames, channels)] otherwise, one inner
    list per frame. *)
Inductive ndarray (float : Type) : Type :=
| Arr1 (samples : list float)
| Arr2 (frames : list (list float)).
Arguments Arr1 {float} samples.
Arguments Arr2 {float} frames.

Class Runtime (float : Type) : Type := {
  truediv : Z → Z → float;
  round_nd : float → Z → float;
  format_exc : exn → string;
  secure_filename : string → string;
  sf_read : bytes → res (ndarray float * Z);
  set_iter : gset string → list string
}.

(** ** Values handed to [jsonify] *)

#[warnings="-register-all"] Inductive value (float : Type) : Type :=
| VNone
| VBool (b : bool)
| VInt (n : Z)
| VFloat (x : float)
| VStr (s : string)
| VDict (items : list (string * value float)).
Arguments VNone {float}.
Arguments VBool {float} b.
Arguments VInt {float} n.
Arguments VFloat {float} x.
Arguments VStr {float} s.
Arguments VDict {float} items.

(** The seven sub-scores [SigMOS.run] returns, a dict with exactly these
    keys; [result['MOS_OVRL']] is the field [MOS_OVRL]. *)
Record scores (float : Type) : Type := Scores {
  MOS_COL : float;
  MOS_DISC : float;
  MOS_LOUD : float;
  MOS_NOISE : float;
  MOS_REVERB : float;
  MOS_SIG : float;
  MOS_OVRL : float
}.
Arguments Scores {float}.
Arguments MOS_COL {float}.
Arguments MOS_DISC {float}.
Arguments MOS_LOUD {float}.
Arguments MOS_NOISE {float}.
Arguments MOS_REVERB {float}.
Arguments MOS_SIG {float}.
Arguments MOS_OVRL {float}.

(** The engine handle: [sigmos_estimator.run(audio, sr=...)]. *)
Record SigMOS (float : Type) : Type := {
  run : ndarray float → Z → res (scores float)
}.
Arguments run {float}.

(** An uploaded part, [request.files['file']]. *)
Record FileStorage : Type := {
  filename : string;
  stream : bytes
}.

(** What [file.save(path)] does: it returns with the bytes written, or it
    raises, having written nothing or a part. *)
Inductive save_result : Type :=
| SaveOk
| SaveRaises (e : exn) (written : option bytes).

(** What one request reads from its surroundings. *)
Record env : Type := {
  uuid4 : string;
  now_isoformat : string;
  save_outcome : save_result;
  remove_error : option exn
}.

(** The same surroundings, but with [os.remove] going as [err] says. *)
Definition with_remove_error (err : option exn) (e : env) : env := {|
  uuid4 := uuid4 e;
  now_isoformat := now_isoformat e;
  save_outcome := save_outcome e;
  remove_error := err
|}.

(** The file system, and the calls made on the engine so far. *)
Record state (float : Type) : Type := State {
  fs : gmap string bytes;
  engine_calls : list (ndarray float * Z)
}.
Arguments State {float}.
Arguments fs {float}.
Arguments engine_calls {float}.

Record response (float : Type) : Type := Response {
  body : value float;
  status : Z
}.
Arguments Response {float}.
Arguments body {float}.
Arguments status {float}.

(** ** Statements that read and write the state, and may raise *)

Definition M (float A : Type) : Type := state float → res A * state float.

Definition ret {float A : Type} (a : A) : M float A := λ st, (inr a, st).

Definition raise {float A : Type} (e : exn) : M float A := λ st, (inl e, st).

Definition bind {float A B : Type} (c : M float A) (k : A → M float B)
  : M float B :=
  λ st, match c st with
        | (inl e, st') => (inl e, st')
        | (inr a, st') => k a st'
        end.

Definition lift {float A : Type} (c : res A) : M float A := λ st, (c, st).

(** [try: body / except Exception as e: handler(e)]. *)
Definition try_except {float A : Type} (c : M float A)
    (handler : exn → M float A) : M float A :=
  λ st, match c st with
        | (inl e, st') => handler e st'
        | (inr a, st') => (inr a, st')
        end.

#[global] Instance M_ret {float : Type} : MRet (M float) := @ret float.
#[global] Instance M_bind {float : Type} : MBind (M float) :=
  λ A B k c, bind c k.

Definition ZeroDivisionError : exn :=
  Exn "ZeroDivisionError" "division by zero".
Definition AttributeError : exn :=
  Exn "AttributeError" "'NoneType' object has no attribute 'run'".
Definition ColumnIndexError : exn :=
  Exn "IndexError" "index 0 is out of bounds for axis 1 with size 0".
Definition TooManyIndices : exn :=
  Exn "IndexError" "too many indices for array".
Definition FileNotFoundError (path : string) : exn :=
  Exn "FileNotFoundError" ("[Errno 2] No such file or directory: '" +:+ path +:+ "'").
Definition LibsndfileError (path : string) : exn :=
  Exn "LibsndfileError" ("Error opening '" +:+ path +:+ "': System error.").

(** ** Dictionaries in insertion order *)

Fixpoint dict_lookup {A : Type} (d : list (string * A)) (k : string)
  : option A :=
  match d with
  | [] => None
  | (k', v) :: d' => if String.eqb k' k then Some v else dict_lookup d' k
  end.

(** [d.get(k, default)]. *)
Definition dict_get {A : Type} (d : list (string * A)) (k : string)
    (default : A) : A :=
  match dict_lookup d k with
  | Some v => v
  | None => default
  end.

Definition keys {A : Type} (d : list (string * A)) : list string := d.*1.

(** Truth value of a Python object. *)
Definition truthy {float : Type} (v : value float) : bool :=
  match v with
  | VNone => false
  | VBool b => b
  | VInt n => negb (n =? 0)%Z
  | VFloat _ => true
  | VStr s => negb (String.eqb s "")
  | VDict items => match items with [] => false | _ => true end
  end.

(** ** numpy *)

Module Np.

(** [len(a)]: the size of the first axis. *)
Definition len {float : Type} (a : ndarray float) : Z :=
  match a with
  | Arr1 samples => Z.of_nat (length samples)
  | Arr2 frames => Z.of_nat (length frames)
  end.

(** [len(a.shape)]. *)
Definition ndim {float : Type} (a : ndarray float) : Z :=
  match a with
  | Arr1 _ => 1
  | Arr2 _ => 2
  end.

(** [a[:, 0]]. *)
Definition column0 {float : Type} (a : ndarray float)
  : res (ndarray float) :=
  match a with
  | Arr1 _ => inl TooManyIndices
  | Arr2 frames =>
      match mapM head frames with
      | Some col => inr (Arr1 col)
      | None => inl ColumnIndexError
      end
  end.

End Np.

(** ** os.path *)

Module OsPath.

(** [os.path.basename(p)]: what follows the last slash. *)
Definition basename (p : string) : string :=
  match Str.split_last "/"%char p with
  | Some (_, t) => t
  | None => p
  end.

(** [os.path.join(a, b)] for two components. *)
Definition join (a b : string) : string :=
  if String.prefix "/" b then b
  else if String.eqb a "" || String.prefix "/" (Str.rev a) then a +:+ b
  else a +:+ "/" +:+ b.

Definition exists_ {float : Type} (p : string) : M float bool :=
  λ st, (inr (bool_decide (is_Some (fs st !! p))), st).

End OsPath.

(** ** JSON request bodies

    What [request.get_json()] can return: any JSON value as Python holds
    it. A JSON real number is a rational or, for the literals [NaN] and
    [Infinity] that Python's parser accepts, not finite. *)

#[warnings="-register-all"] Inductive json : Type :=
| JNull
| JBool (b : bool)
| JInt (n : Z)
| JFloat (x : Q)
| JNonFinite
| JStr (s : string)
| JList (items : list json)
| JObject (members : gmap string json).

(** The call [request.get_json()]: it returns the parsed body, or the
    framework aborts the request with an HTTP error (400 for a body that
    does not parse, 415 for a content type that is not JSON, 413 for a
    body over the size limit). *)
Inductive get_json_result : Type :=
| GetJson (data : json)
| GetJsonAborts (code : Z).

(** What a number names as a file descriptor of the server process:
    nothing, or an open descriptor, on which [sf.read] returns
    ([read_error] is [None]) or raises. *)
Inductive fd_state : Type :=
| FdClosed
| FdOpen (read_error : option exn).

Definition TypeError (msg : string) : exn := Exn "TypeError" msg.
Definition OverflowError (msg : string) : exn := Exn "OverflowError" msg.

Module Json.

(** [bool(x)], as [not data] takes it. *)
Definition truth (j : json) : bool :=
  match j with
  | JNull => false
  | JBool b => b
  | JInt n => negb (n =? 0)%Z
  | JFloat x => negb (Qnum x =? 0)%Z
  | JNonFinite => true
  | JStr s => negb (String.eqb s "")
  | JList items => match items with [] => false | _ => true end
  | JObject members => negb (Nat.eqb (size members) 0)
  end.

Definition type_name (j : json) : string :=
  match j with
  | JNull => "NoneType"
  | JBool _ => "bool"
  | JInt _ => "int"
  | JFloat _ | JNonFinite => "float"
  | JStr _ => "str"
  | JList _ => "list"
  | JObject _ => "dict"
  end.

(** [x == 'file_path'] for an element of a list. *)
Definition is_str (s : string) (j : json) : bool :=
  match j with
  | JStr t => String.eqb t s
  | _ => false
  end.

(** ['file_path' in data]: a key of a dict, a substring of a string, an
    element of a list; other values are not iterable. *)
Definition contains (data : json) (key : string) : res bool :=
  match data with
  | JObject members => inr (bool_decide (is_Some (members !! key)))
  | JStr s => inr (Str.contains s key)
  | JList items => inr (existsb (is_str key) items)
  | _ => inl (TypeError ("argument of type '" +:+ type_name data
                         +:+ "' is not iterable"))
  end.

(** [not data or 'file_path' not in data]: the membership is only asked
    of a value that is true. *)
Definition lacks (data : json) (key : string) : res bool :=
  if negb (truth data) then inr true
  else res_bind (contains data key) (λ found, inr (negb found)).

(** [data['file_path']]: the member of a dict; a string or a list takes
    no string as index. *)
Definition getitem (data : json) (key : string) : res json :=
  match data with
  | JObject members =>
      match members !! key with
      | Some v => inr v
      | None => inl (Exn "KeyError" ("'" +:+ key +:+ "'"))
      end
  | JStr _ => inl (TypeError "string indices must be integers")
  | JList _ => inl (TypeError "list indices must be integers or slices, not str")
  | _ => inl (TypeError ("'" +:+ type_name data
                         +:+ "' object is not subscriptable"))
  end.

(** The bodies the interface describes: no value, or an object whose
    members are strings. *)
Definition of_body (data : option (gmap string string)) : json :=
  match data with
  | None => JNull
  | Some d => JObject (JStr <$> d)
  end.

End Json.

(** ** The service ([sigmos_api.py]) *)

Section Service.

Context {float : Type} `{!Runtime float}.

Abbreviation value := (value float).
Abbreviation M := (M float).

(** [sf.read(path)]: decodes what is stored at the path. *)
Definition sf_read_path (path : string) : M (ndarray float * Z) :=
  λ st, match fs st !! path with
        | Some content => (sf_read content, st)
        | None => (inl (LibsndfileError path), st)
        end.

(** [len(audio_data) / sample_rate]. *)
Definition py_truediv (a b : Z) : res float :=
  if (b =? 0)%Z then inl ZeroDivisionError else inr (truediv a b).

(** [float(x)] on a Python float. *)
Definition py_float (x : float) : float := x.

(** [sigmos_estimator.run(audio_data, sr=sample_rate)] on the global
    handle, which is [None] until [init_sigmos_model] has set it. *)
Definition estimator_run (sigmos_estimator : option (SigMOS float))
    (audio_data : ndarray float) (sr : Z) : M (scores float) :=
  match sigmos_estimator with
  | None => raise AttributeError
  | Some est =>
      λ st, (run est audio_data sr,
             State (fs st) (engine_calls st ++ [(audio_data, sr)]))
  end.

Definition mos_scores_of (result : scores float) : list (string * value) :=
  [ ("整体质量_MOS_OVRL", VFloat (round_nd (MOS_OVRL result) 3));
    ("信号质量_MOS_SIG", VFloat (round_nd (MOS_SIG result) 3));
    ("噪声程度_MOS_NOISE", VFloat (round_nd (MOS_NOISE result) 3));
    ("响度_MOS_LOUD", VFloat (round_nd (MOS_LOUD result) 3));
    ("着色度_MOS_COL", VFloat (round_nd (MOS_COL result) 3));
    ("不连续性_MOS_DISC", VFloat (round_nd (MOS_DISC result) 3));
    ("混响_MOS_REVERB", VFloat (round_nd (MOS_REVERB result) 3)) ].

Definition raw_scores_of (result : scores float) : list (string * value) :=
  [ ("MOS_OVRL", VFloat (py_float (MOS_OVRL result)));
    ("MOS_SIG", VFloat (py_float (MOS_SIG result)));
    ("MOS_NOISE", VFloat (py_float (MOS_NOISE result)));
    ("MOS_LOUD", VFloat (py_float (MOS_LOUD result)));
    ("MOS_COL", VFloat (py_float (MOS_COL result)));
    ("MOS_DISC", VFloat (py_float (MOS_DISC result)));
    ("MOS_REVERB", VFloat (py_float (MOS_REVERB result))) ].

(** The body of the [try] in [evaluate_audio_file], lines 72-129. *)
Definition evaluate_audio_file_try
    (sigmos_estimator : option (SigMOS float)) (e : env)
    (audio_file_path : string) : M (list (string * value)) :=
  present ← OsPath.exists_ audio_file_path;
  if negb present then
    ret [ ("error", VStr ("音频文件不存在: " +:+ audio_file_path)) ]
  else
    '(audio_data, sample_rate) ← sf_read_path audio_file_path;
    duration ← lift (py_truediv (Np.len audio_data) sample_rate);
    let file_info :=
      [ ("filename", VStr (OsPath.basename audio_file_path));
        ("file_size_samples", VInt (Np.len audio_data));
        ("sample_rate", VInt sample_rate);
        ("duration_seconds", VFloat (round_nd duration 2)) ] in
    '(audio_data, file_info) ←
      (if (1 <? Np.ndim audio_data)%Z then
         col ← lift (Np.column0 audio_data);
         ret (col, file_info ++ [ ("converted_to_mono", VBool true) ])
       else
         ret (audio_data,
              file_info ++ [ ("converted_to_mono", VBool false) ]));
    result ← estimator_run sigmos_estimator audio_data sample_rate;
    let mos_scores := mos_scores_of result in
    let raw_scores := raw_scores_of result in
    ret [ ("success", VBool true);
          ("timestamp", VStr (now_isoformat e));
          ("file_info", VDict file_info);
          ("mos_scores", VDict mos_scores);
          ("raw_scores", VDict raw_scores) ].

(** [evaluate_audio_file(audio_file_path)], lines 67-136. *)
Definition evaluate_audio_file
    (sigmos_estimator : option (SigMOS float)) (e : env)
    (audio_file_path : string) : M (list (string * value)) :=
  try_except (evaluate_audio_file_try sigmos_estimator e audio_file_path)
    (λ exc, ret [ ("success", VBool false);
                  ("error", VStr (exn_str exc));
                  ("traceback", VStr (format_exc exc)) ]).

(** [jsonify(d)] with status 200, and [jsonify(d), code]. *)
Definition jsonify (d : list (string * value)) : response float :=
  Response (VDict d) 200.
Definition jsonify_status (d : list (string * value)) (code : Z)
  : response float :=
  Response (VDict d) code.

(** [GET /health], lines 154-169. *)
Definition health_check (sigmos_estimator : option (SigMOS float))
  : response float :=
  match sigmos_estimator with
  | None =>
      jsonify_status [ ("status", VStr "unhealthy");
                       ("message", VStr "SigMOS模型未初始化") ] 503
  | Some _ =>
      jsonify [ ("status", VStr "healthy");
                ("message", VStr "服务运行正常");
                ("model_loaded", VBool true) ]
  end.

(** [file.save(file_path)]. *)
Definition file_save (e : env) (file : FileStorage) (file_path : string)
  : M unit :=
  λ st, match save_outcome e with
        | SaveOk =>
            (inr (), State (<[file_path := stream file]> (fs st))
                           (engine_calls st))
        | SaveRaises exc written =>
            (inl exc,
             State (match written with
                    | Some part => <[file_path := part]> (fs st)
                    | None => fs st
                    end) (engine_calls st))
        end.

(** [os.remove(file_path)]. *)
Definition os_remove (e : env) (file_path : string) : M unit :=
  λ st, match fs st !! file_path with
        | None => (inl (FileNotFoundError file_path), st)
        | Some _ =>
            match remove_error e with
            | Some exc => (inl exc, st)
            | None =>
                (inr (), State (delete file_path (fs st)) (engine_calls st))
            end
        end.

(** The name under which [evaluate_uploaded_file] stores an upload. *)
Definition upload_path (e : env) (file : FileStorage) : string :=
  let filename := secure_filename (filename file) in
  let unique_filename := uuid4 e +:+ "_" +:+ filename in
  OsPath.join UPLOAD_FOLDER unique_filename.

Definition unsupported_format_error : string :=
  "不支持的文件格式，支持的格式: " +:+ Str.join ", " (set_iter ALLOWED_EXTENSIONS).

(** [POST /evaluate], lines 193-245. *)
Definition evaluate_uploaded_file
    (sigmos_estimator : option (SigMOS float)) (e : env)
    (files : gmap string FileStorage) : M (response float) :=
  match files !! "file" with
  | None =>
      ret (jsonify_status [ ("success", VBool false);
                            ("error", VStr "没有上传文件") ] 400)
  | Some file =>
      if String.eqb (filename file) "" then
        ret (jsonify_status [ ("success", VBool false);
                              ("error", VStr "没有选择文件") ] 400)
      else
        allowed ← lift (allowed_file (filename file));
        if negb allowed then
          ret (jsonify_status
                 [ ("success", VBool false);
                   ("error", VStr unsupported_format_error) ] 400)
        else
          try_except
            (let file_path := upload_path e file in
             file_save e file file_path ;;
             result ← evaluate_audio_file sigmos_estimator e file_path;
             try_except (os_remove e file_path) (λ _, ret ()) ;;
             if truthy (dict_get result "success" (VBool false)) then
               ret (jsonify result)
             else
               ret (jsonify_status result 500))
            (λ exc,
               ret (jsonify_status
                      [ ("success", VBool false);
                        ("error", VStr ("处理文件时出错: " +:+ exn_str exc)) ]
                      500))
  end.

(** [evaluate_audio_file(n)] for a descriptor number [n]: the [try] of
    lines 71-129 gets as far as [os.path.basename], which takes no
    integer, and the [except] of lines 131-136 returns the failure. *)
Definition evaluate_audio_file_descriptor (kind : string)
    (state_of_fd : fd_state) : list (string * value) :=
  let exc :=
    match state_of_fd with
    | FdOpen (Some read_exc) => read_exc
    | _ => TypeError ("expected str, bytes or os.PathLike object, not "
                      +:+ kind)
    end in
  [ ("success", VBool false);
    ("error", VStr (exn_str exc));
    ("traceback", VStr (format_exc exc)) ].

(** Lines 260-273 for a [file_path] that is a number [n] (an [int] or a
    [bool], as [kind] says), written [text] by the f-string:
    [os.path.exists] asks whether [n] is an open descriptor, and raises
    when [n] is no C [int]. *)
Definition evaluate_descriptor (fds : Z → fd_state) (kind : string)
    (n : Z) (text : string) : M (response float) :=
  if (n <? -2147483648)%Z then
    raise (OverflowError "fd is less than minimum")
  else if (2147483647 <? n)%Z then
    raise (OverflowError "fd is greater than maximum")
  else
    match fds n with
    | FdClosed =>
        ret (jsonify_status
               [ ("success", VBool false);
                 ("error", VStr ("文件不存在: " +:+ text)) ] 404)
    | FdOpen read_error =>
        ret (jsonify_status
               (evaluate_audio_file_descriptor kind (FdOpen read_error)) 500)
    end.

(** [POST /evaluate_path], lines 247-273. [data] is what
    [request.get_json()] returned, any JSON value; [fds] says which
    numbers are open file descriptors of the process. *)
Definition evaluate_file_path (fds : Z → fd_state)
    (sigmos_estimator : option (SigMOS float)) (e : env)
    (data : json) : M (response float) :=
  lacking ← lift (Json.lacks data "file_path");
  if (lacking : bool) then
    ret (jsonify_status [ ("success", VBool false);
                          ("error", VStr "请提供file_path参数") ] 400)
  else
    file_path ← lift (Json.getitem data "file_path");
    match file_path with
    | JStr file_path =>
        present ← OsPath.exists_ file_path;
        if negb present then
          ret (jsonify_status
                 [ ("success", VBool false);
                   ("error", VStr ("文件不存在: " +:+ file_path)) ] 404)
        else
          result ← evaluate_audio_file sigmos_estimator e file_path;
          if truthy (dict_get result "success" (VBool false)) then
            ret (jsonify result)
          else
            ret (jsonify_status result 500)
    | JInt n => evaluate_descriptor fds "int" n (pretty n)
    | JBool b =>
        evaluate_descriptor fds "bool" (if b then 1 else 0)
          (if b then "True" else "False")
    | other =>
        raise (TypeError
                 ("stat: path should be string, bytes, os.PathLike or integer, not "
                  +:+ Json.type_name other))
    end.

(** [@app.errorhandler(500)], lines 283-289. *)
Definition internal_error : response float :=
  jsonify_status [ ("success", VBool false);
                   ("error", VStr "内部服务器错误") ] 500.

(** Flask around a view function: an exception that leaves the view is
    answered by the handler registered for 500. *)
Definition dispatch (view : M (response float)) : M (response float) :=
  try_except view (λ _, ret internal_error).

Definition post_evaluate (sigmos_estimator : option (SigMOS float))
    (e : env) (files : gmap string FileStorage) : M (response float) :=
  dispatch (evaluate_uploaded_file sigmos_estimator e files).

(** [POST /evaluate_path] on a body that [get_json()] returned. *)
Definition post_evaluate_path_json (fds : Z → fd_state)
    (sigmos_estimator : option (SigMOS float)) (e : env) (data : json)
  : M (response float) :=
  dispatch (evaluate_file_path fds sigmos_estimator e data).

(** [POST /evaluate_path] on the bodies the interface describes, no value
    or an object whose members are strings; no descriptor is consulted
    for these. *)
Definition post_evaluate_path (sigmos_estimator : option (SigMOS float))
    (e : env) (data : option (gmap string string)) : M (response float) :=
  post_evaluate_path_json (λ _, FdClosed) sigmos_estimator e
    (Json.of_body data).

End Service.

(** ** What the specification speaks of *)

Section Outcomes.

Context {float : Type} `{!Runtime float}.

Abbreviation value := (value float).

(** Channel reduction as the specification words it: a one-dimensional
    array is kept, of a two-dimensional one the first sample of every
    frame is taken. *)
Inductive channel_reduction : ndarray float → ndarray float → bool → Prop :=
| KeepMono samples :
    channel_reduction (Arr1 samples) (Arr1 samples) false
| FirstChannel frames col :
    Forall2 (λ frame x, head frame = Some x) frames col →
    channel_reduction (Arr2 frames) (Arr1 col) true.

Definition success_result (e : env) (path : string) (audio : ndarray float)
    (sr : Z) (converted : bool) (sc : scores float) : list (string * value) :=
  [ ("success", VBool true);
    ("timestamp", VStr (now_isoformat e));
    ("file_info",
      VDict [ ("filename", VStr (OsPath.basename path));
              ("file_size_samples", VInt (Np.len audio));
              ("sample_rate", VInt sr);
              ("duration_seconds",
                VFloat (round_nd (truediv (Np.len audio) sr) 2));
              ("converted_to_mono", VBool converted) ]);
    ("mos_scores", VDict (mos_scores_of sc));
    ("raw_scores", VDict (raw_scores_of sc)) ].

Definition failure_result (exc : exn) : list (string * value) :=
  [ ("success", VBool false);
    ("error", VStr (exn_str exc));
    ("traceback", VStr (format_exc exc)) ].

(** The ways a call of [evaluate_audio_file] can go. *)
Inductive eval_outcome (sigmos_estimator : option (SigMOS float)) (e : env)
    (path : string) (st : state float)
  : list (string * value) → state float → Prop :=
| EvalMissing :
    fs st !! path = None →
    eval_outcome sigmos_estimator e path st
      [ ("error", VStr ("音频文件不存在: " +:+ path)) ] st
| EvalDecodeFailed content exc :
    fs st !! path = Some content →
    sf_read content = inl exc →
    eval_outcome sigmos_estimator e path st (failure_result exc) st
| EvalZeroRate content audio :
    fs st !! path = Some content →
    sf_read content = inr (audio, 0%Z) →
    eval_outcome sigmos_estimator e path st
      (failure_result ZeroDivisionError) st
| EvalNoColumn content frames sr :
    fs st !! path = Some content →
    sf_read content = inr (Arr2 frames, sr) →
    sr ≠ 0%Z →
    mapM head frames = None →
    eval_outcome sigmos_estimator e path st
      (failure_result ColumnIndexError) st
| EvalNoEngine content audio sr mono converted :
    fs st !! path = Some content →
    sf_read content = inr (audio, sr) →
    sr ≠ 0%Z →
    channel_reduction audio mono converted →
    sigmos_estimator = None →
    eval_outcome sigmos_estimator e path st
      (failure_result AttributeError) st
| EvalScoringFailed content audio sr mono converted est exc :
    fs st !! path = Some content →
    sf_read content = inr (audio, sr) →
    sr ≠ 0%Z →
    channel_reduction audio mono converted →
    sigmos_estimator = Some est →
    run est mono sr = inl exc →
    eval_outcome sigmos_estimator e path st (failure_result exc)
      (State (fs st) (engine_calls st ++ [(mono, sr)]))
| EvalOk content audio sr mono converted est sc :
    fs st !! path = Some content →
    sf_read content = inr (audio, sr) →
    sr ≠ 0%Z →
    channel_reduction audio mono converted →
    sigmos_estimator = Some est →
    run est mono sr = inr sc →
    eval_outcome sigmos_estimator e path st
      (success_result e path audio sr converted sc)
      (State (fs st) (engine_calls st ++ [(mono, sr)])).

(** The failure shape [{success: false, error, [traceback]}]. *)
Definition failure_shape (b : value) : Prop :=
  ∃ d, b = VDict d
       ∧ dict_lookup d "success" = Some (VBool false)
       ∧ (∃ msg, dict_lookup d "error" = Some (VStr msg))
       ∧ keys d ⊆ ["success"; "error"; "traceback"].

(** [result] is a successful evaluation result. *)
Definition succeeded (result : list (string * value)) : Prop :=
  dict_lookup result "success" = Some (VBool true).

(** The error message of a response body. *)
Definition error_message (r : response float) : option string :=
  match body r with
  | VDict d =>
      match dict_lookup d "error" with
      | Some (VStr msg) => Some msg
      | _ => None
      end
  | _ => None
  end.

(** A message names the allowed set when every allowed extension occurs
    in it. *)
Definition names_allowed_set (msg : string) : bool :=
  forallb (Str.contains msg) (elements ALLOWED_EXTENSIONS).

(** The three checks of the upload validator, as the specification lists
    them. *)
Definition file_part_absent (files : gmap string FileStorage) : Prop :=
  files !! "file" = None.
Definition filename_empty (files : gmap string FileStorage) : Prop :=
  ∃ file, files !! "file" = Some file ∧ filename file = "".
Definition extension_not_allowed (files : gmap string FileStorage) : Prop :=
  ∃ file, files !! "file" = Some file ∧ filename file ≠ ""
          ∧ ¬ has_allowed_extension (filename file).

(** The validation contract as claimed: status 400 with a message naming
    the allowed set, exactly when one of the three checks fails. *)
Definition rejects_naming_allowed_set (est : option (SigMOS float)) (e : env)
    (files : gmap string FileStorage) (st : state float) : Prop :=
  (∃ resp st' msg,
      post_evaluate est e files st = (inr resp, st')
      ∧ status resp = 400%Z
      ∧ error_message resp = Some msg
      ∧ names_allowed_set msg = true)
  ↔ (file_part_absent files ∨ filename_empty files
     ∨ extension_not_allowed files).

(** The seven dimensions, in the order of the score bundle. *)
Definition DIMENSIONS : list string :=
  ["OVRL"; "SIG"; "NOISE"; "LOUD"; "COL"; "DISC"; "REVERB"].

(** The dimension a key of either rendering stands for: what follows its
    last underscore. *)
Definition dimension (key : string) : option string :=
  Str.after_last "_"%char key.

(** The engine's value for a dimension. *)
Definition score_of (sc : scores float) (dim : string) : option float :=
  dict_lookup
    [ ("OVRL", MOS_OVRL sc); ("SIG", MOS_SIG sc); ("NOISE", MOS_NOISE sc);
      ("LOUD", MOS_LOUD sc); ("COL", MOS_COL sc); ("DISC", MOS_DISC sc);
      ("REVERB", MOS_REVERB sc) ] dim.

(** The entry of a rendering for a dimension. *)
Definition entry_of (rendering : list (string * value)) (dim : string)
  : option value :=
  match list_find (λ kv, dimension kv.1 = Some dim) rendering with
  | Some (_, (_, v)) => Some v
  | None => None
  end.

(** The response a handler builds from an evaluation result. *)
Definition respond (result : list (string * value)) : response float :=
  if truthy (dict_get result "success" (VBool false)) then jsonify result
  else jsonify_status result 500.

(** The state after the best-effort removal of [path]. *)
Definition after_remove (e : env) (path : string)
    (st : state float) : state float :=
  match fs st !! path, remove_error e with
  | Some _, None => State (delete path (fs st)) (engine_calls st)
  | _, _ => st
  end.

End Outcomes.

(** ** An instance to run the model

    Exact rational arithmetic stands for floats ([/] is the quotient,
    [round] rounds half to even on the decimal grid), names pass
    [secure_filename] with only their letters, digits, dots, dashes and
    underscores, and a file decodes as: one byte for the channel count,
    one for the sample rate, then the samples frame by frame, one byte
    each. *)

Module Exact.

Definition div (a b : Z) : Q :=
  Qred (Qmake (a * Z.sgn b) (Z.to_pos (Z.abs b))).

(** Nearest integer to [n / d], ties to even, for [d > 0]. *)
Definition round_half_even (n d : Z) : Z :=
  let q := (n / d)%Z in
  let r := (n mod d)%Z in
  if (2 * r <? d)%Z then q
  else if (d <? 2 * r)%Z then (q + 1)%Z
  else if Z.even q then q else (q + 1)%Z.

Definition round (x : Q) (ndigits : Z) : Q :=
  let scale := (10 ^ ndigits)%Z in
  let n := round_half_even (Qnum x * scale) (Zpos (Qden x)) in
  Qred (Qmake n (Z.to_pos scale)).

Definition keep (c : ascii) : bool :=
  let n := N_of_ascii c in
  ((48 <=? n) && (n <=? 57) || (65 <=? n) && (n <=? 90)
   || (97 <=? n) && (n <=? 122) || (n =? 45) || (n =? 46) || (n =? 95))%N.

Fixpoint secure (s : string) : string :=
  match s with
  | EmptyString => EmptyString
  | String c s' => if keep c then String c (secure s') else secure s'
  end.

Definition sample (b : Byte.byte) : Q := inject_Z (Z.of_N (Byte.to_N b)).

Fixpoint frames_of (fuel channels : nat) (l : list Byte.byte)
  : list (list Q) :=
  match fuel, l with
  | S fuel', _ :: _ =>
      (sample <$> take channels l) :: frames_of fuel' channels (drop channels l)
  | _, _ => []
  end.

Definition decode (content : bytes) : res (ndarray Q * Z) :=
  match content with
  | c :: r :: data =>
      let channels := N.to_nat (Byte.to_N c) in
      let rate := Z.of_N (Byte.to_N r) in
      match channels with
      | O => inl (Exn "LibsndfileError" "Format not recognised.")
      | 1%nat => inr (Arr1 (sample <$> data), rate)
      | _ => inr (Arr2 (frames_of (length data) channels data), rate)
      end
  | _ => inl (Exn "LibsndfileError" "Format not recognised.")
  end.

#[global] Instance runtime : Runtime Q := {|
  truediv := div;
  round_nd := round;
  format_exc e :=
    "Traceback (most recent call last): " +:+ exn_type e +:+ ": " +:+ exn_str e;
  secure_filename := secure;
  sf_read := decode;
  set_iter := elements
|}.

(** An engine that answers every input with the same seven scores. *)
Definition engine : SigMOS Q := {|
  run _ _ := inr (Scores (div 31234 10000) (div 40005 10000) (div 29995 10000)
                         (div 4 1) (div 35 10) (div 33333 10000)
                         (div 30625 10000))
|}.

(** An engine that raises on every input. *)
Definition failing_engine : SigMOS Q := {|
  run _ _ := inl (Exn "ValueError" "audio too short")
|}.

Definition req_env : env := {|
  uuid4 := "0b0c7f3e";
  now_isoformat := "2024-01-01T00:00:00";
  save_outcome := SaveOk;
  remove_error := None
|}.

(** Two channels at rate 8, three frames: (1,9), (2,9), (3,9). *)
Definition stereo : bytes :=
  [Byte.x02; Byte.x08; Byte.x01; Byte.x09; Byte.x02; Byte.x09; Byte.x03; Byte.x09].

(** One channel at rate 8, three samples. *)
Definition mono : bytes := [Byte.x01; Byte.x08; Byte.x01; Byte.x02; Byte.x03].

Definition st0 : state Q := State ∅ [].

(** An upload that passes the name check, and one that does not. *)
Definition file_wav : FileStorage :=
  {| filename := "A b.WAV"; stream := stereo |}.
Definition files_wav : gmap string FileStorage := {[ "file" := file_wav ]}.
Definition files_txt : gmap string FileStorage :=
  {[ "file" := {| filename := "notes.txt"; stream := mono |} ]}.

(** Two files on the server, and their evaluations. *)
Definition st_disk : state Q :=
  State {[ "/data/m.wav" := mono; "/data/s.wav" := stereo ]} [].

Definition result_of (r : res (list (string * value Q)) * state Q)
  : list (string * value Q) :=
  match r.1 with
  | inr d => d
  | inl _ => []
  end.

Definition mono_run : res (list (string * value Q)) * state Q :=
  evaluate_audio_file (Some engine) req_env "/data/m.wav" st_disk.
Definition stereo_run : res (list (string * value Q)) * state Q :=
  evaluate_audio_file (Some engine) req_env "/data/s.wav" st_disk.

End Exact.

(** ** Start-up and the informational endpoints ([sigmos_api.py]) *)

Definition MAX_CONTENT_LENGTH : Z := 100 * 1024 * 1024.

(** An answer of the service: a JSON body with its status, or the page
    the framework writes for an HTTP error that no handler of the app is
    registered for. *)
Inductive answer (float : Type) : Type :=
| JsonAnswer (resp : response float)
| ErrorPage (code : Z).
Arguments JsonAnswer {float} resp.
Arguments ErrorPage {float} code.

Definition answer_status {float : Type} (a : answer float) : Z :=
  match a with
  | JsonAnswer resp => status resp
  | ErrorPage code => code
  end.

Section Transport.

Context {float : Type} `{!Runtime float}.

(** [@app.errorhandler(413)], lines 275-281. *)
Definition too_large : response float :=
  jsonify_status
    [ ("success", VBool false);
      ("error",
        VStr ("文件太大，最大允许 "
              +:+ pretty (MAX_CONTENT_LENGTH / (1024 * 1024))%Z +:+ " MB")) ]
    413.

(** Flask on an HTTP error raised inside a view: the handler the app
    registered for its code answers, if there is one (lines 275 and
    283). *)
Definition handle_http_exception (code : Z) : answer float :=
  if (code =? 413)%Z then JsonAnswer too_large
  else if (code =? 500)%Z then JsonAnswer internal_error
  else ErrorPage code.

(** [POST /evaluate_path], from the call of [get_json()] in line 251
    on. *)
Definition post_evaluate_path_request (fds : Z → fd_state)
    (sigmos_estimator : option (SigMOS float)) (e : env)
    (request : get_json_result) : M float (answer float) :=
  match request with
  | GetJsonAborts code => ret (handle_http_exception code)
  | GetJson data =>
      resp ← post_evaluate_path_json fds sigmos_estimator e data;
      ret (JsonAnswer resp)
  end.

(** The failure shape as claimed of every request that does not
    succeed. *)
Definition fails_in_shape (fds : Z → fd_state)
    (est : option (SigMOS float)) (e : env) (request : get_json_result)
    (st : state float) : Prop :=
  ∀ a st',
    post_evaluate_path_request fds est e request st = (inr a, st') →
    answer_status a ≠ 200%Z →
    ∃ resp, a = JsonAnswer resp ∧ failure_shape (body resp).

End Transport.

(** An array as [sf.read] returns it: one-dimensional for one channel,
    else frames of one common width, the channel count, of at least 2. *)
Definition decoded_shape {float : Type} (audio : ndarray float) : Prop :=
  match audio with
  | Arr1 _ => True
  | Arr2 frames =>
      ∃ channels, 2 ≤ channels
                  ∧ Forall (λ frame, length frame = channels) frames
  end.

(** The module's two globals, both [None] when the module is loaded. *)
Record globals (float : Type) : Type := Globals {
  g_sigmos_estimator : option (SigMOS float);
  g_model_dir : option string
}.
Arguments Globals {float}.
Arguments g_sigmos_estimator {float}.
Arguments g_model_dir {float}.

Definition initial_globals {float : Type} : globals float :=
  Globals None None.

(** How the process goes on after [main]'s start-up: [sys.exit(code)], or
    [app.run] with the globals as they then are. *)
Inductive startup (float : Type) : Type :=
| Exited (code : Z)
| Serving (g : globals float).
Arguments Exited {float} code.
Arguments Serving {float} g.

(** The body of [GET /]. *)
Record index_body : Type := {
  index_service : string;
  index_version : string;
  index_endpoints : list (string * string);
  index_supported_formats : list string;
  index_max_file_size_mb : Z
}.

(** The body of [GET /info]. *)
Record info_body : Type := {
  info_service : string;
  info_model_version : string;
  info_model_directory : option string;
  info_supported_formats : list string;
  info_max_file_size_mb : Z;
  info_mos_dimensions : list string
}.

Definition MODEL_FILE_NAME : string :=
  "model-sigmos_1697718653_41d092e8-epo-200.onnx".

Section Startup.

Context {float : Type} `{!Runtime float}.

(** [os.path.dirname(os.path.abspath(__file__))], and the constructor
    [SigMOS(model_dir=..., model_version=Version.V1)]. *)
Variable current_dir : string.
Variable new_SigMOS : string → res (SigMOS float).

(** The [try] of [init_sigmos_model], lines 51-61; [model_dir] is
    assigned before anything can raise. What is printed is left out. *)
Definition init_sigmos_model_try (g : globals float) (st : state float)
  : res bool * globals float :=
  let model_dir :=
    OsPath.join (OsPath.join current_dir "ICASSP2024") "sigmos" in
  let g := Globals (g_sigmos_estimator g) (Some model_dir) in
  let model_file := OsPath.join model_dir MODEL_FILE_NAME in
  if negb (bool_decide (is_Some (fs st !! model_file))) then
    (inl (Exn "FileNotFoundError" ("模型文件不存在: " +:+ model_file)), g)
  else
    match new_SigMOS model_dir with
    | inl exc => (inl exc, g)
    | inr est => (inr true, Globals (Some est) (g_model_dir g))
    end.

(** [init_sigmos_model()], lines 46-65. *)
Definition init_sigmos_model (g : globals float) (st : state float)
  : bool * globals float :=
  match init_sigmos_model_try g st with
  | (inr b, g') => (b, g')
  | (inl _, g') => (false, g')
  end.

(** The start-up of the [__main__] block, lines 291-319. *)
Definition main (g : globals float) (st : state float) : startup float :=
  let '(ok, g') := init_sigmos_model g st in
  if negb ok then Exited 1 else Serving g'.

(** [GET /], lines 138-152. *)
Definition index : index_body := {|
  index_service := "SigMOS音频质量评估API";
  index_version := "1.0";
  index_endpoints :=
    [ ("POST /evaluate", "上传音频文件进行评估");
      ("POST /evaluate_url", "通过URL评估音频文件");
      ("GET /health", "健康检查");
      ("GET /info", "服务信息") ];
  index_supported_formats := set_iter ALLOWED_EXTENSIONS;
  index_max_file_size_mb := MAX_CONTENT_LENGTH / (1024 * 1024)
|}.

(** [GET /info], lines 171-191. *)
Definition service_info (g : globals float) : info_body := {|
  info_service := "SigMOS音频质量评估API";
  info_model_version := "V1 (15.10.2023)";
  info_model_directory := g_model_dir g;
  info_supported_formats := set_iter ALLOWED_EXTENSIONS;
  info_max_file_size_mb := MAX_CONTENT_LENGTH / (1024 * 1024);
  info_mos_dimensions :=
    [ "整体质量 (MOS_OVRL)";
      "信号质量 (MOS_SIG)";
      "噪声程度 (MOS_NOISE)";
      "响度 (MOS_LOUD)";
      "着色度 (MOS_COL)";
      "不连续性 (MOS_DISC)";
      "混响 (MOS_REVERB)" ]
|}.

End Startup.

(** ** The command-line script ([test_sigmos.py]) *)

Module Cli.

Section Cli.

Context {float : Type} `{!Runtime float}.

Variable new_SigMOS : string → res (SigMOS float).

(** [test_audio_file(audio_file_path, model_dir)], lines 17-78; [None]
    is the script's [return None]. What is printed is left out, the
    quotient it prints is still computed. *)
Definition test_audio_file (audio_file_path model_dir : string)
  : M float (option (scores float)) :=
  match new_SigMOS model_dir with
  | inl _ => ret None
  | inr sigmos_estimator =>
      present ← OsPath.exists_ audio_file_path;
      if negb present then ret None
      else
        try_except
          ('(audio_data, sample_rate) ← sf_read_path audio_file_path;
           _ ← lift (py_truediv (Np.len audio_data) sample_rate);
           audio_data ←
             (if (1 <? Np.ndim audio_data)%Z
              then lift (Np.column0 audio_data)
              else ret audio_data);
           result ← estimator_run (Some sigmos_estimator) audio_data
                      sample_rate;
           ret (Some result))
          (λ _, ret None)
  end.

End Cli.

End Cli.

(** ** The test client ([test_api_pretty.py]) *)

Module Pretty.

(** [s.endswith(suffix)]. *)
Fixpoint endswith (s suffix : string) : bool :=
  if String.eqb s suffix then true
  else match s with
       | EmptyString => false
       | String _ s' => endswith s' suffix
       end.

Definition audio_extensions : list string := [".wav"; ".mp3"; ".flac"; ".m4a"].

(** The filter of [batch_test_files], line 137:
    [any(file.lower().endswith(ext) for ext in audio_extensions)]. *)
Definition is_audio_name (file : string) : bool :=
  existsb (endswith (Str.lower file)) audio_extensions.

(** [len(s)] of a [str] held as UTF-8: the bytes that start a character. *)
Definition starts_char (c : ascii) : bool :=
  let n := N_of_ascii c in negb ((128 <=? n) && (n <? 192))%N.

Fixpoint py_len (s : string) : nat :=
  match s with
  | EmptyString => 0
  | String c s' => (if starts_char c then 1 else 0) + py_len s'
  end.

Fixpoint spaces (n : nat) : string :=
  match n with
  | O => EmptyString
  | S n' => String " "%char (spaces n')
  end.

(** [f"{s:20}"] for a string: padded on the right to the width. *)
Definition pad (width : nat) (s : string) : string :=
  s +:+ spaces (width - py_len s).

Definition score_order : list (string * string) :=
  [ ("整体质量_MOS_OVRL", "整体质量 (MOS_OVRL)");
    ("信号质量_MOS_SIG", "信号质量 (MOS_SIG)");
    ("噪声程度_MOS_NOISE", "噪声程度 (MOS_NOISE)");
    ("响度_MOS_LOUD", "响度 (MOS_LOUD)");
    ("着色度_MOS_COL", "着色度 (MOS_COL)");
    ("不连续性_MOS_DISC", "不连续性 (MOS_DISC)");
    ("混响_MOS_REVERB", "混响 (MOS_REVERB)") ].

Section Print.

Context {float : Type}.

(** [f"{x:.3f}"]. *)
Variable format_3f : float → string.

Definition score_line (display_name : string) (x : float) : string :=
  "    * " +:+ pad 20 display_name +:+ ": " +:+ format_3f x.

(** [print_mos_scores(mos_scores)], lines 40-55: the lines it prints. *)
Definition print_mos_scores (mos_scores : list (string * float))
  : list string :=
  "  MOS评分结果:"
  :: flat_map (λ '(key, display_name),
                 match dict_lookup mos_scores key with
                 | Some x => [score_line display_name x]
                 | None => []
                 end) score_order.

(** The numbers of a JSON object, as the client decodes them. *)
Definition numbers_of (d : list (string * value float))
  : list (string * float) :=
  omap (λ kv, match kv.2 with
              | VFloat x => Some (kv.1, x)
              | _ => None
              end) d.

End Print.

End Pretty.

(** ** More of what the specification speaks of *)

(** The label [/info] gives for a key of the display rendering: the part
    before the first underscore, then the rest in brackets. *)
Fixpoint split_first (c : ascii) (s : string) : option (string * string) :=
  match s with
  | EmptyString => None
  | String a s' =>
      if Ascii.eqb a c then Some (EmptyString, s')
      else match split_first c s' with
           | Some (p, t) => Some (String a p, t)
           | None => None
           end
  end.

Definition label_of_key (key : string) : string :=
  match split_first "_"%char key with
  | Some (name, rest) => name +:+ " (" +:+ rest +:+ ")"
  | None => key
  end.

(** More inputs to run the model on. *)
Module Sample.

(** A constructor that finds its model, and one that raises. *)
Definition new_engine (model_dir : string) : res (SigMOS Q) :=
  inr Exact.engine.
Definition broken_engine (model_dir : string) : res (SigMOS Q) :=
  inl (Exn "InvalidProtobuf" "Load model failed").

Definition model_path : string :=
  "/srv/app/ICASSP2024/sigmos/model-sigmos_1697718653_41d092e8-epo-200.onnx".

(** A server disk with the model file and the two audio files. *)
Definition st_server : state Q :=
  State {[ model_path := [Byte.x08];
           "/data/m.wav" := Exact.mono;
           "/data/s.wav" := Exact.stereo ]} [].

(** A file that decodes to no samples. *)
Definition silent : bytes := [Byte.x01; Byte.x08].

Definition st_odd : state Q :=
  State {[ "/data/empty.wav" := silent;
           "/data/bad.wav" := [] ]} [].

(** A request whose save fails after a part was written. *)
Definition env_partial : env := {|
  uuid4 := "0b0c7f3e";
  now_isoformat := "2024-01-01T00:00:00";
  save_outcome :=
    SaveRaises (Exn "OSError" "[Errno 28] No space left on device")
      (Some [Byte.x02]);
  remove_error := None
|}.

(** A process with no descriptor open but the three standard ones. *)
Definition fds (n : Z) : fd_state :=
  if ((0 <=? n) && (n <=? 2))%Z
  then FdOpen (Some (Exn "LibsndfileError" "Format not recognised."))
  else FdClosed.

(** A request whose removal fails. *)
Definition env_locked : env :=
  with_remove_error (Some (Exn "PermissionError" "[Errno 13] Permission denied"))
    Exact.req_env.

(** A request whose save fails. *)
Definition env_full : env := {|
  uuid4 := "0b0c7f3e";
  now_isoformat := "2024-01-01T00:00:00";
  save_outcome := SaveRaises (Exn "OSError" "[Errno 28] No space left on device") None;
  remove_error := None
|}.

(** Seven scores, and their display rendering as a client may receive
    it: decoded, with the members in the opposite order. *)
Definition some_scores : scores Q :=
  Scores (Exact.div 3 1) (Exact.div 3 1) (Exact.div 3 1) (Exact.div 4 1)
    (Exact.div 35 10) (Exact.div 3 1) (Exact.div 31234 10000).
Definition received : list (string * Q) :=
  reverse (Pretty.numbers_of (mos_scores_of some_scores)).

(** Three decimals of an exact rational, as [f"{x:.3f}"] writes them. *)
Definition format_3f (x : Q) : string :=
  let n := Exact.round_half_even (Qnum x * 1000) (Zpos (Qden x)) in
  let frac := pretty (Z.abs n mod 1000)%Z in
  (if (n <? 0)%Z then "-" else "")
  +:+ pretty (Z.abs n / 1000)%Z +:+ "."
  +:+ (if (Z.abs n mod 1000 <? 10)%Z then "00"
       else if (Z.abs n mod 1000 <? 100)%Z then "0"
       else "") +:+ frac.

End Sample.

(** ** The name check *)

Section StrFacts.

Lemma rev_snoc s c : Str.rev (Str.snoc s c) = String c (Str.rev s).
Proof. induction s as [|a s IH]; simpl; [done|]. by rewrite IH. Qed.

Lemma rev_involutive s : Str.rev (Str.rev s) = s.
Proof.
  induction s as [|a s IH]; simpl; [done|]. by rewrite rev_snoc, IH.
Qed.

Lemma app_cons a (s t : string) : String a s +:+ t = String a (s +:+ t).
Proof. reflexivity. Qed.

Lemma snoc_app s c t : Str.snoc s c +:+ t = s +:+ String c t.
Proof.
  induction s as [|a s IH]; simpl; [done|]. by rewrite !app_cons, IH.
Qed.

Lemma rscan_snoc sep r a acc :
  Str.rscan sep (Str.snoc r a) acc =
    match Str.rscan sep r acc with
    | Some (p, t) => Some (String a p, t)
    | None => if Ascii.eqb a sep then Some (EmptyString, Str.rev r +:+ acc)
              else None
    end.
Proof.
  revert acc. induction r as [|c r IH]; intros acc; simpl.
  - by destruct (Ascii.eqb a sep).
  - destruct (Ascii.eqb c sep) eqn:Hc.
    + by rewrite rev_snoc.
    + rewrite IH. destruct (Str.rscan sep r (String c acc)) as [[p t]|];
        [done|]. destruct (Ascii.eqb a sep); [|done].
      by rewrite snoc_app.
Qed.

Lemma app_empty_r (s : string) : s +:+ "" = s.
Proof. induction s as [|a s IH]; [done|]. by rewrite app_cons, IH. Qed.

(** The right-to-left scan finds the split that [split_last] finds from
    the left. *)
Lemma rscan_split_last sep s :
  Str.rscan sep (Str.rev s) "" = Str.split_last sep s.
Proof.
  induction s as [|a s IH]; simpl; [done|].
  rewrite rscan_snoc, IH. destruct (Str.split_last sep s) as [[p t]|];
    [done|]. by rewrite rev_involutive, app_empty_r.
Qed.

Lemma prefix_empty s : String.prefix "" s = true.
Proof. by destruct s. Qed.

Lemma contains_char_split_last c s :
  Str.contains s (String c "") = true ↔ is_Some (Str.split_last c s).
Proof.
  induction s as [|a s IH]; simpl.
  - split; [done|]. by intros [? ?].
  - destruct (ascii_dec c a) as [->|Hne].
    + rewrite prefix_empty, Ascii.eqb_refl.
      split; [intros _|done].
      destruct (Str.split_last a s) as [[p t]|]; eauto.
    + assert (Ascii.eqb a c = false) as Hac
        by (apply Ascii.eqb_neq; congruence).
      rewrite Hac, IH.
      destruct (Str.split_last c s) as [[p t]|]; split; eauto;
        intros [? ?]; done.
Qed.

End StrFacts.

Section AllowedFile.

Lemma rsplit1_split_last sep s :
  Str.rsplit1 sep s =
    match Str.split_last sep s with
    | None => [s]
    | Some (before, after) => [before; after]
    end.
Proof. unfold Str.rsplit1. by rewrite rscan_split_last. Qed.

(** What [allowed_file] computes, in terms of the split found from the
    left: the indexing never raises. *)
Lemma allowed_file_unfold filename :
  allowed_file filename =
    inr (match Str.after_last "."%char filename with
         | Some ext => bool_decide (Str.lower ext ∈ ALLOWED_EXTENSIONS)
         | None => false
         end).
Proof.
  unfold allowed_file, Str.after_last.
  destruct (Str.contains filename ".") eqn:Hdot.
  - apply contains_char_split_last in Hdot as [[p t] Hpt].
    rewrite rsplit1_split_last, Hpt. reflexivity.
  - destruct (Str.split_last "."%char filename) as [pt|] eqn:Hpt; [|done].
    assert (Str.contains filename "." = true) as Hc
      by (apply contains_char_split_last; rewrite Hpt; eauto).
    congruence.
Qed.

Lemma allowed_file_true filename :
  allowed_file filename = inr true ↔ has_allowed_extension filename.
Proof.
  rewrite allowed_file_unfold. unfold has_allowed_extension.
  destruct (Str.after_last "."%char filename) as [ext|]; split.
  - intros [= H]. apply bool_decide_eq_true in H. eauto.
  - intros (e & [= <-] & H). f_equal. by apply bool_decide_eq_true.
  - done.
  - by intros (e & ? & _).
Qed.

Lemma allowed_file_total filename :
  ∃ b, allowed_file filename = inr b.
Proof. rewrite allowed_file_unfold. eauto. Qed.

Lemma allowed_file_false filename :
  allowed_file filename = inr false ↔ ¬ has_allowed_extension filename.
Proof.
  rewrite <- allowed_file_true.
  destruct (allowed_file_total filename) as [[] ->]; split; done.
Qed.

End AllowedFile.

(** ** The orchestrator *)

Section Orchestrator.

Context {float : Type} `{!Runtime float}.

Lemma mapM_head_first (frames : list (list float)) col :
  mapM head frames = Some col →
  Forall2 (λ frame x, head frame = Some x) frames col.
Proof. intros H. by apply mapM_Some in H. Qed.

(** [evaluate_audio_file] never raises, and each call goes one of the
    ways of [eval_outcome]. *)
Lemma evaluate_audio_file_outcome est e path (st : state float) :
  ∃ result st',
    evaluate_audio_file est e path st = (inr result, st')
    ∧ eval_outcome est e path st result st'.
Proof.
  unfold evaluate_audio_file, try_except, evaluate_audio_file_try.
  unfold mbind, M_bind, bind, OsPath.exists_, sf_read_path, lift.
  simpl. destruct (fs st !! path) as [content|] eqn:Hfs; simpl.
  2: { eexists _, _. split; [done|]. by constructor. }
  rewrite ?Hfs.
  destruct (sf_read content) as [exc|[audio sr]] eqn:Hread; simpl.
  { eexists _, _. split; [done|]. by econstructor. }
  unfold py_truediv. destruct (Z.eqb_spec sr 0) as [->|Hsr].
  { eexists _, _. split; [done|]. by econstructor. }
  destruct audio as [samples|frames]; simpl.
  - destruct est as [est|]; simpl.
    + destruct (run est (Arr1 samples) sr) as [exc|sc] eqn:Hrun.
      * eexists _, _. split; [done|].
        eapply EvalScoringFailed; eauto. constructor.
      * eexists _, _. split; [done|].
        eapply (EvalOk _ _ _ _ _ (Arr1 samples)); eauto. constructor.
    + eexists _, _. split; [done|].
      eapply EvalNoEngine; eauto. constructor.
  - destruct (mapM head frames) as [col|] eqn:Hcol; simpl.
    2: { eexists _, _. split; [done|]. by eapply EvalNoColumn. }
    apply mapM_head_first in Hcol.
    destruct est as [est|]; simpl.
    + destruct (run est (Arr1 col) sr) as [exc|sc] eqn:Hrun.
      * eexists _, _. split; [done|].
        eapply EvalScoringFailed; eauto. by constructor.
      * eexists _, _. split; [done|].
        eapply (EvalOk _ _ _ _ _ (Arr2 frames)); eauto. by constructor.
    + eexists _, _. split; [done|].
      eapply EvalNoEngine; eauto. by constructor.
Qed.

End Orchestrator.

(** ** The handlers *)

Section Handlers.

Context {float : Type} `{!Runtime float}.

Implicit Types (est : option (SigMOS float)) (st : state float).

Lemma evaluate_audio_file_inv est e path st result st' :
  evaluate_audio_file est e path st = (inr result, st') →
  eval_outcome est e path st result st'.
Proof.
  intros Hrun.
  destruct (evaluate_audio_file_outcome est e path st) as (r & s & Heq & Hout).
  congruence.
Qed.

Lemma eval_outcome_fs est e path st result st' :
  eval_outcome est e path st result st' → fs st' = fs st.
Proof. by destruct 1. Qed.

Lemma try_remove_run e path st :
  try_except (os_remove e path) (λ _, ret ()) st
  = (inr (), after_remove e path st).
Proof.
  unfold try_except, os_remove, after_remove.
  destruct (fs st !! path); [|done]. by destruct (remove_error e).
Qed.

(** [POST /evaluate], check by check. *)
Lemma post_evaluate_no_part est e files st :
  files !! "file" = None →
  post_evaluate est e files st
  = (inr (jsonify_status [ ("success", VBool false);
                           ("error", VStr "没有上传文件") ] 400), st).
Proof.
  intros Hf. unfold post_evaluate, dispatch, try_except,
    evaluate_uploaded_file. by rewrite Hf.
Qed.

Lemma post_evaluate_empty_name est e files st file :
  files !! "file" = Some file →
  filename file = "" →
  post_evaluate est e files st
  = (inr (jsonify_status [ ("success", VBool false);
                           ("error", VStr "没有选择文件") ] 400), st).
Proof.
  intros Hf Hn. unfold post_evaluate, dispatch, try_except,
    evaluate_uploaded_file. by rewrite Hf, Hn.
Qed.

Lemma post_evaluate_bad_extension est e files st file :
  files !! "file" = Some file →
  filename file ≠ "" →
  ¬ has_allowed_extension (filename file) →
  post_evaluate est e files st
  = (inr (jsonify_status [ ("success", VBool false);
                           ("error", VStr unsupported_format_error) ] 400),
     st).
Proof.
  intros Hf Hn Hext. apply allowed_file_false in Hext.
  unfold post_evaluate, dispatch, try_except, evaluate_uploaded_file.
  rewrite Hf. apply String.eqb_neq in Hn. rewrite Hn.
  unfold mbind, M_bind, bind, lift. by rewrite Hext.
Qed.

Lemma post_evaluate_save_raises est e files st file exc written :
  files !! "file" = Some file →
  filename file ≠ "" →
  has_allowed_extension (filename file) →
  save_outcome e = SaveRaises exc written →
  post_evaluate est e files st
  = (inr (jsonify_status
            [ ("success", VBool false);
              ("error", VStr ("处理文件时出错: " +:+ exn_str exc)) ] 500),
     State (match written with
            | Some part => <[upload_path e file := part]> (fs st)
            | None => fs st
            end) (engine_calls st)).
Proof.
  intros Hf Hn Hext Hsave. apply allowed_file_true in Hext.
  unfold post_evaluate, dispatch, try_except, evaluate_uploaded_file.
  rewrite Hf. apply String.eqb_neq in Hn. rewrite Hn.
  unfold mbind, M_bind, bind, lift, file_save. rewrite Hext. simpl.
  by rewrite Hsave.
Qed.

Lemma post_evaluate_saved est e files st file :
  files !! "file" = Some file →
  filename file ≠ "" →
  has_allowed_extension (filename file) →
  save_outcome e = SaveOk →
  let path := upload_path e file in
  let saved := State (<[path := stream file]> (fs st)) (engine_calls st) in
  ∃ result st2,
    evaluate_audio_file est e path saved = (inr result, st2)
    ∧ eval_outcome est e path saved result st2
    ∧ fs st2 = <[path := stream file]> (fs st)
    ∧ post_evaluate est e files st
      = (inr (respond result), after_remove e path st2).
Proof.
  intros Hf Hn Hext Hsave path saved. apply allowed_file_true in Hext.
  destruct (evaluate_audio_file_outcome est e path saved)
    as (result & st2 & Heq & Hout).
  exists result, st2. do 2 (split; [done|]).
  split; [by rewrite (eval_outcome_fs _ _ _ _ _ _ Hout)|].
  unfold post_evaluate, dispatch, evaluate_uploaded_file.
  rewrite Hf. apply String.eqb_neq in Hn. rewrite Hn.
  unfold mbind, M_bind, bind, lift. rewrite Hext. simpl.
  unfold try_except at 1 2. unfold file_save. rewrite Hsave.
  fold path. fold saved. rewrite Heq, try_remove_run.
  unfold respond. by destruct (truthy _).
Qed.

(** [POST /evaluate_path], check by check. *)
Lemma body_lacks_param (data : option (gmap string string)) :
  (data = None ∨ ∃ d, data = Some d ∧ d !! "file_path" = None) →
  Json.lacks (Json.of_body data) "file_path" = inr true.
Proof.
  intros [->|(d & -> & Hd)]; [done|]. unfold Json.lacks. simpl.
  destruct (negb (negb _)); [done|]. simpl.
  by rewrite lookup_fmap, Hd.
Qed.

Lemma body_has_param (d : gmap string string) p :
  d !! "file_path" = Some p →
  Json.lacks (Json.of_body (Some d)) "file_path" = inr false
  ∧ Json.getitem (Json.of_body (Some d)) "file_path" = inr (JStr p).
Proof.
  intros Hd. unfold Json.lacks. simpl. rewrite lookup_fmap, Hd. simpl.
  split; [|done].
  destruct (Nat.eqb_spec (size (JStr <$> d)) 0) as [Hsize|]; [|done].
  apply map_size_empty_iff, fmap_empty_inv in Hsize. subst.
  by rewrite lookup_empty in Hd.
Qed.

Lemma post_evaluate_path_no_param est e data st :
  (data = None ∨ ∃ d, data = Some d ∧ d !! "file_path" = None) →
  post_evaluate_path est e data st
  = (inr (jsonify_status [ ("success", VBool false);
                           ("error", VStr "请提供file_path参数") ] 400), st).
Proof.
  intros Hlack.
  unfold post_evaluate_path, post_evaluate_path_json, dispatch, try_except,
    evaluate_file_path.
  unfold mbind, M_bind, bind, lift. by rewrite (body_lacks_param data Hlack).
Qed.

Lemma post_evaluate_path_missing est e d st p :
  d !! "file_path" = Some p →
  fs st !! p = None →
  post_evaluate_path est e (Some d) st
  = (inr (jsonify_status [ ("success", VBool false);
                           ("error", VStr ("文件不存在: " +:+ p)) ] 404), st).
Proof.
  intros Hd Hp. destruct (body_has_param d p Hd) as [Hlack Hget].
  unfold post_evaluate_path, post_evaluate_path_json, dispatch, try_except,
    evaluate_file_path.
  unfold mbind, M_bind, bind, lift. rewrite Hlack, Hget.
  unfold OsPath.exists_. by rewrite Hp.
Qed.

Lemma post_evaluate_path_present est e d st p :
  d !! "file_path" = Some p →
  is_Some (fs st !! p) →
  ∃ result st',
    evaluate_audio_file est e p st = (inr result, st')
    ∧ eval_outcome est e p st result st'
    ∧ post_evaluate_path est e (Some d) st = (inr (respond result), st').
Proof.
  intros Hd Hp. destruct (body_has_param d p Hd) as [Hlack Hget].
  destruct (evaluate_audio_file_outcome est e p st)
    as (result & st' & Heq & Hout).
  exists result, st'. do 2 (split; [done|]).
  unfold post_evaluate_path, post_evaluate_path_json, dispatch, try_except,
    evaluate_file_path.
  unfold mbind, M_bind, bind, lift. rewrite Hlack, Hget.
  unfold OsPath.exists_.
  rewrite bool_decide_eq_true_2 by done. simpl. rewrite Heq.
  unfold respond. by destruct (truthy _).
Qed.

Lemma failure_result_shape (exc : exn) :
  failure_shape (VDict (failure_result exc)).
Proof. eexists. do 2 (split; [done|]). split; [by eexists|done]. Qed.

Lemma rejection_shape (msg : string) :
  failure_shape
    (VDict [ ("success", VBool false); ("error", VStr msg) ] : value float).
Proof.
  eexists. do 2 (split; [done|]). split; [by eexists|].
  intros k Hk. unfold keys in *. simpl in *.
  apply elem_of_cons in Hk as [->|Hk]; [by constructor|].
  apply elem_of_cons in Hk as [->|Hk]; [by do 2 constructor|].
  by apply elem_of_nil in Hk.
Qed.

(** What [respond] makes of the result of a call on a path that is
    there: 200 with the result when it succeeded, 500 with the failure
    shape otherwise. *)
Lemma respond_cases est e path st result st' :
  eval_outcome est e path st result st' →
  is_Some (fs st !! path) →
  (succeeded result ∧ respond result = jsonify result)
  ∨ (¬ succeeded result
     ∧ respond result = jsonify_status result 500
     ∧ failure_shape (VDict result)).
Proof.
  intros Hout [content Hc].
  destruct Hout; try congruence; try (by left);
    right; (split; [done|]); (split; [done|]); apply failure_result_shape.
Qed.

Lemma respond_no_engine e path st result st' :
  eval_outcome None e path st result st' →
  is_Some (fs st !! path) →
  respond result = jsonify_status result 500
  ∧ failure_shape (VDict result).
Proof.
  intros Hout [content Hc].
  destruct Hout; try congruence;
    (split; [done|apply failure_result_shape]).
Qed.

(** The path view on any body: it raises, or rejects, or answers with
    the evaluation of a path that is there. *)
Lemma object_lacks_param (members : gmap string json) :
  members !! "file_path" = None →
  Json.lacks (JObject members) "file_path" = inr true.
Proof.
  intros Hm. unfold Json.lacks. simpl. destruct (negb (negb _)); [done|].
  simpl. by rewrite Hm.
Qed.

Lemma object_has_param (members : gmap string json) v :
  members !! "file_path" = Some v →
  Json.lacks (JObject members) "file_path" = inr false
  ∧ Json.getitem (JObject members) "file_path" = inr v.
Proof.
  intros Hm. unfold Json.lacks. simpl. rewrite Hm. simpl. split; [|done].
  destruct (Nat.eqb_spec (size members) 0) as [Hsize|]; [|done].
  apply map_size_empty_iff in Hsize. subst. by rewrite lookup_empty in Hm.
Qed.

Lemma descriptor_failure_shape (kind : string) (fd : fd_state) :
  failure_shape (VDict (evaluate_audio_file_descriptor kind fd) : value float).
Proof. unfold evaluate_audio_file_descriptor. apply failure_result_shape. Qed.

Lemma evaluate_descriptor_cases (fds : Z → fd_state) kind n text st :
  (∃ exc, evaluate_descriptor fds kind n text st = (inl exc, st))
  ∨ (∃ resp, evaluate_descriptor fds kind n text st = (inr resp, st)
             ∧ (status resp = 404%Z ∨ status resp = 500%Z)
             ∧ failure_shape (body resp)).
Proof.
  unfold evaluate_descriptor.
  destruct (n <? -2147483648)%Z; [left; by eexists|].
  destruct (2147483647 <? n)%Z; [left; by eexists|].
  right. destruct (fds n) as [|read_error]; eexists; (split; [done|]).
  - split; [by left|apply rejection_shape].
  - split; [by right|apply descriptor_failure_shape].
Qed.

Lemma view_path_cases (fds : Z → fd_state) est e data st :
  (∃ exc, evaluate_file_path fds est e data st = (inl exc, st))
  ∨ (∃ resp, evaluate_file_path fds est e data st = (inr resp, st)
             ∧ (status resp = 400%Z ∨ status resp = 404%Z
                ∨ status resp = 500%Z)
             ∧ failure_shape (body resp))
  ∨ (∃ p result st',
        is_Some (fs st !! p)
        ∧ eval_outcome est e p st result st'
        ∧ evaluate_file_path fds est e data st = (inr (respond result), st')).
Proof.
  unfold evaluate_file_path, mbind, M_bind, bind, lift.
  destruct (Json.lacks data "file_path") as [exc|[|]]; [left; by eexists| |].
  { right; left. eexists. split; [done|]. split; [by left|].
    apply rejection_shape. }
  destruct (Json.getitem data "file_path") as [exc|file_path];
    [left; by eexists|].
  destruct file_path as [|b|n|x| |p|items|members];
    try (left; by eexists).
  - destruct (evaluate_descriptor_cases fds "bool" (if b then 1 else 0)
                (if b then "True" else "False") st)
      as [[exc ->]|(resp & -> & Hst & Hshape)]; [left; by eexists|].
    right; left. exists resp. split; [done|]. split; [tauto|done].
  - destruct (evaluate_descriptor_cases fds "int" n (pretty n) st)
      as [[exc ->]|(resp & -> & Hst & Hshape)]; [left; by eexists|].
    right; left. exists resp. split; [done|]. split; [tauto|done].
  - unfold OsPath.exists_. destruct (fs st !! p) as [content|] eqn:Hp; simpl.
    + right; right.
      destruct (evaluate_audio_file_outcome est e p st)
        as (result & st' & Heq & Hout).
      exists p, result, st'. split; [by rewrite Hp|]. split; [done|].
      rewrite Heq. unfold respond. by destruct (truthy _).
    + right; left. eexists. split; [done|]. split; [tauto|].
      apply rejection_shape.
Qed.

Lemma path_json_cases (fds : Z → fd_state) est e data st :
  ∃ resp st',
    post_evaluate_path_json fds est e data st = (inr resp, st')
    ∧ ((st' = st
        ∧ (status resp = 400%Z ∨ status resp = 404%Z ∨ status resp = 500%Z)
        ∧ failure_shape (body resp))
       ∨ ∃ p result,
           is_Some (fs st !! p)
           ∧ eval_outcome est e p st result st'
           ∧ resp = respond result).
Proof.
  unfold post_evaluate_path_json, dispatch, try_except.
  destruct (view_path_cases fds est e data st)
    as [[exc ->]|[(resp & -> & Hst & Hshape)|(p & result & st' & Hp & Hout & ->)]].
  - eexists _, _. split; [done|]. left. split; [done|].
    split; [tauto|apply rejection_shape].
  - eexists _, _. split; [done|]. by left.
  - eexists _, _. split; [done|]. right. by exists p, result.
Qed.

End Handlers.

(** ** The upload name check, against the specification *)

Section NameCheck.

Lemma split_last_sound c s p t :
  Str.split_last c s = Some (p, t) →
  s = p +:+ String c t ∧ Str.contains t (String c "") = false.
Proof.
  revert p. induction s as [|a s IH]; intros p; simpl; [done|].
  destruct (Str.split_last c s) as [[p' t']|] eqn:Hs.
  - intros [= <- <-]. destruct (IH p' eq_refl) as [-> Hno]. by rewrite app_cons.
  - destruct (Ascii.eqb_spec a c) as [->|]; [|done]. intros [= <- <-].
    split; [done|]. apply not_true_is_false. intros Hc.
    apply contains_char_split_last in Hc as [? Hc]. congruence.
Qed.

Lemma split_last_complete c p t :
  Str.contains t (String c "") = false →
  Str.split_last c (p +:+ String c t) = Some (p, t).
Proof.
  intros Hno. assert (Str.split_last c t = None) as Ht.
  { destruct (Str.split_last c t) eqn:Hs; [|done].
    assert (Str.contains t (String c "") = true)
      by (apply contains_char_split_last; rewrite Hs; eauto).
    congruence. }
  induction p as [|a p IH].
  - change ("" +:+ String c t) with (String c t). simpl.
    by rewrite Ht, Ascii.eqb_refl.
  - rewrite app_cons. simpl. by rewrite IH.
Qed.

Lemma has_allowed_extension_spec filename :
  has_allowed_extension filename ↔
    ∃ stem ext, filename = stem +:+ "." +:+ ext
                ∧ Str.contains ext "." = false
                ∧ Str.lower ext ∈ ALLOWED_EXTENSIONS.
Proof.
  unfold has_allowed_extension, Str.after_last. split.
  - intros (ext & Hsplit & Hin).
    destruct (Str.split_last "."%char filename) as [[p t]|] eqn:Hs; [|done].
    injection Hsplit as ->. apply split_last_sound in Hs as [-> Hno]. eauto.
  - intros (stem & ext & -> & Hno & Hin). exists ext. split; [|done].
    change (stem +:+ "." +:+ ext) with (stem +:+ String "."%char ext).
    by rewrite split_last_complete.
Qed.

(** C10. [allowed_file] accepts a name exactly when the name has a dot
    and what follows its last dot, lowercased, is one of wav, mp3, flac,
    m4a; it never raises; it rejects [audio] and accepts [.wav]. *)
Theorem allowed_file_accepts_iff filename :
  (allowed_file filename = inr true ∨ allowed_file filename = inr false)
  ∧ (allowed_file filename = inr true ↔
       ∃ stem ext, filename = stem +:+ "." +:+ ext
                   ∧ Str.contains ext "." = false
                   ∧ Str.lower ext ∈ ALLOWED_EXTENSIONS)
  ∧ allowed_file "audio" = inr false
  ∧ allowed_file ".wav" = inr true.
Proof.
  split; [|split; [|split]].
  - destruct (allowed_file_total filename) as [[] ->]; eauto.
  - rewrite allowed_file_true. apply has_allowed_extension_spec.
  - by vm_compute.
  - by vm_compute.
Qed.

Example allowed_file_upper : allowed_file "Take.2.FLAC" = inr true.
Proof. by vm_compute. Qed.

Example allowed_file_other : allowed_file "notes.wav.txt" = inr false.
Proof. by vm_compute. Qed.

End NameCheck.

(** ** Results of a successful evaluation *)

Section Results.

Context {float : Type} `{!Runtime float}.

Implicit Types (est : option (SigMOS float)) (st : state float).

(** A result with [success] true comes from the last way only. *)
Lemma succeeded_inv est e path st result st' :
  eval_outcome est e path st result st' →
  succeeded result →
  ∃ content audio sr mono converted eng sc,
    fs st !! path = Some content
    ∧ sf_read content = inr (audio, sr)
    ∧ sr ≠ 0%Z
    ∧ channel_reduction audio mono converted
    ∧ est = Some eng
    ∧ run eng mono sr = inr sc
    ∧ result = success_result e path audio sr converted sc
    ∧ st' = State (fs st) (engine_calls st ++ [(mono, sr)]).
Proof.
  destruct 1; intros Hs; try discriminate Hs.
  by eexists _, _, _, _, _, _, _.
Qed.

(** C3. In every successful evaluation, [duration_seconds] is the decoded
    sample count over the sample rate, rounded to 2 decimals, and the
    count and the rate are the ones the file info reports. *)
Theorem duration_is_rounded_quotient est e path st result st' :
  evaluate_audio_file est e path st = (inr result, st') →
  succeeded result →
  ∃ content audio sr info,
    fs st !! path = Some content
    ∧ sf_read content = inr (audio, sr)
    ∧ sr ≠ 0%Z
    ∧ dict_lookup result "file_info" = Some (VDict info)
    ∧ dict_lookup info "file_size_samples" = Some (VInt (Np.len audio))
    ∧ dict_lookup info "sample_rate" = Some (VInt sr)
    ∧ dict_lookup info "duration_seconds"
      = Some (VFloat (round_nd (truediv (Np.len audio) sr) 2)).
Proof.
  intros Hrun Hs. apply evaluate_audio_file_inv in Hrun.
  destruct (succeeded_inv _ _ _ _ _ _ Hrun Hs)
    as (content & audio & sr & mono & conv & eng & sc
        & Hfs & Hread & Hsr & _ & _ & _ & -> & _).
  eexists content, audio, sr, _. do 3 (split; [done|]).
  repeat split; reflexivity.
Qed.

Lemma decoded_shape_column (frames : list (list float)) :
  decoded_shape (Arr2 frames) → ∃ col, mapM head frames = Some col.
Proof.
  intros (channels & Hmin & Hall).
  induction Hall as [|frame frames Hlen _ [col Hcol]]; [by exists []|].
  destruct frame as [|x frame]; [simpl in Hlen; lia|].
  exists (x :: col). simpl. by rewrite Hcol.
Qed.

(** C4. For every decoded input, with a rate other than 0 and the engine
    handle set: of an array with a channel axis the engine is called,
    once, on the first sample of every frame, and if it returns scores
    the result is a success with [converted_to_mono] true; a
    one-dimensional array goes to the engine as it is, and the success
    has [converted_to_mono] false and reports its length as the sample
    count. *)
Theorem mono_conversion est e path st content audio sr eng :
  fs st !! path = Some content →
  sf_read content = inr (audio, sr) →
  decoded_shape audio →
  sr ≠ 0%Z →
  est = Some eng →
  ∃ result st',
    evaluate_audio_file est e path st = (inr result, st')
    ∧ match audio with
      | Arr2 frames =>
          ∃ col,
            Forall2 (λ frame x, head frame = Some x) frames col
            ∧ engine_calls st' = engine_calls st ++ [(Arr1 col, sr)]
            ∧ match run eng (Arr1 col) sr with
              | inr _ =>
                  succeeded result
                  ∧ ∃ info,
                      dict_lookup result "file_info" = Some (VDict info)
                      ∧ dict_lookup info "converted_to_mono"
                        = Some (VBool true)
              | inl _ => ¬ succeeded result
              end
      | Arr1 samples =>
          engine_calls st' = engine_calls st ++ [(Arr1 samples, sr)]
          ∧ match run eng (Arr1 samples) sr with
            | inr _ =>
                succeeded result
                ∧ ∃ info,
                    dict_lookup result "file_info" = Some (VDict info)
                    ∧ dict_lookup info "converted_to_mono"
                      = Some (VBool false)
                    ∧ dict_lookup info "file_size_samples"
                      = Some (VInt (Z.of_nat (length samples)))
            | inl _ => ¬ succeeded result
            end
      end.
Proof.
  intros Hfs Hread Hshape Hsr ->.
  unfold evaluate_audio_file, try_except, evaluate_audio_file_try.
  unfold mbind, M_bind, bind, OsPath.exists_, sf_read_path, lift.
  simpl. rewrite Hfs. simpl. rewrite ?Hfs, Hread. simpl.
  unfold py_truediv. destruct (Z.eqb_spec sr 0) as [|_]; [done|].
  destruct audio as [samples|frames]; simpl.
  - destruct (run eng (Arr1 samples) sr) as [exc|sc];
      eexists _, _; (split; [done|]); (split; [done|]); [done|].
    split; [done|]. by eexists.
  - destruct (decoded_shape_column frames Hshape) as [col Hcol].
    rewrite Hcol. simpl.
    destruct (run eng (Arr1 col) sr) as [exc|sc] eqn:Hrun;
      eexists _, _; (split; [done|]); exists col;
      (split; [by apply mapM_Some|]); (split; [done|]); rewrite Hrun;
      [done|].
    split; [done|]. by eexists.
Qed.

(** C5. In every successful evaluation, for each of the seven dimensions
    the raw rendering holds the engine's value as it is and the display
    rendering holds that value rounded to 3 decimals. *)
Theorem display_is_rounded_raw est e path st result st' :
  evaluate_audio_file est e path st = (inr result, st') →
  succeeded result →
  ∃ eng mono sr sc mos raw,
    est = Some eng
    ∧ engine_calls st' = engine_calls st ++ [(mono, sr)]
    ∧ run eng mono sr = inr sc
    ∧ dict_lookup result "mos_scores" = Some (VDict mos)
    ∧ dict_lookup result "raw_scores" = Some (VDict raw)
    ∧ length mos = 7%nat ∧ length raw = 7%nat
    ∧ ∀ dim, dim ∈ DIMENSIONS →
        ∃ x, score_of sc dim = Some x
             ∧ entry_of raw dim = Some (VFloat x)
             ∧ entry_of mos dim = Some (VFloat (round_nd x 3)).
Proof.
  intros Hrun Hs. apply evaluate_audio_file_inv in Hrun.
  destruct (succeeded_inv _ _ _ _ _ _ Hrun Hs)
    as (content & audio & sr & mono & conv & eng & sc
        & _ & _ & _ & _ & Hest & Heng & -> & ->).
  exists eng, mono, sr, sc, (mos_scores_of sc), (raw_scores_of sc).
  do 7 (split; [done|]).
  intros dim Hdim. unfold DIMENSIONS in Hdim.
  repeat (apply elem_of_cons in Hdim as [->|Hdim]);
    [..|by apply elem_of_nil in Hdim];
    eexists; (split; [reflexivity|]); split; by vm_compute.
Qed.

(** C6. In every successful evaluation the keys of the raw rendering and
    of the display rendering stand, in this order, for OVRL, SIG, NOISE,
    LOUD, COL, DISC, REVERB; a second successful evaluation, of whatever
    input, has the same keys in the same order. *)
Theorem score_order_fixed est e path st result st'
    est2 e2 path2 st2 result2 st2' :
  evaluate_audio_file est e path st = (inr result, st') →
  succeeded result →
  evaluate_audio_file est2 e2 path2 st2 = (inr result2, st2') →
  succeeded result2 →
  ∃ mos raw mos2 raw2,
    dict_lookup result "mos_scores" = Some (VDict mos)
    ∧ dict_lookup result "raw_scores" = Some (VDict raw)
    ∧ dict_lookup result2 "mos_scores" = Some (VDict mos2)
    ∧ dict_lookup result2 "raw_scores" = Some (VDict raw2)
    ∧ dimension <$> keys raw = Some <$> DIMENSIONS
    ∧ dimension <$> keys mos = Some <$> DIMENSIONS
    ∧ keys raw = (λ dim, "MOS_" +:+ dim) <$> DIMENSIONS
    ∧ keys raw2 = keys raw
    ∧ keys mos2 = keys mos.
Proof.
  intros Hrun Hs Hrun2 Hs2.
  apply evaluate_audio_file_inv in Hrun, Hrun2.
  destruct (succeeded_inv _ _ _ _ _ _ Hrun Hs)
    as (? & ? & ? & ? & ? & ? & sc & _ & _ & _ & _ & _ & _ & -> & _).
  destruct (succeeded_inv _ _ _ _ _ _ Hrun2 Hs2)
    as (? & ? & ? & ? & ? & ? & sc2 & _ & _ & _ & _ & _ & _ & -> & _).
  exists (mos_scores_of sc), (raw_scores_of sc),
    (mos_scores_of sc2), (raw_scores_of sc2).
  do 4 (split; [done|]). repeat split; by vm_compute.
Qed.

End Results.

(** ** The endpoints *)

Section Endpoints.

Context {float : Type} `{!Runtime float}.

Implicit Types (est : option (SigMOS float)) (st : state float).

Lemma name_check_cases (file : FileStorage) :
  filename file = ""
  ∨ (filename file ≠ "" ∧ ¬ has_allowed_extension (filename file))
  ∨ (filename file ≠ "" ∧ has_allowed_extension (filename file)).
Proof.
  destruct (decide (filename file = "")) as [|Hn]; [by left|right].
  destruct (allowed_file_total (filename file)) as [[] Hb].
  - right. split; [done|]. by apply allowed_file_true.
  - left. split; [done|]. by apply allowed_file_false.
Qed.

(** X22. Once an upload has passed validation and has been saved, the
    handler tries to remove the saved file whatever the evaluation gave:
    when the removal goes through, the file system after the request is
    the one before it without the upload path; and the response is the
    same whether the removal goes through or raises. *)
Theorem upload_artifact_removed est e files st file :
  files !! "file" = Some file →
  filename file ≠ "" →
  has_allowed_extension (filename file) →
  save_outcome e = SaveOk →
  ∃ resp st',
    post_evaluate est e files st = (inr resp, st')
    ∧ (remove_error e = None →
       fs st' = delete (upload_path e file) (fs st)
       ∧ fs st' !! upload_path e file = None)
    ∧ (∀ err, ∃ st'',
         post_evaluate est (with_remove_error err e) files st
         = (inr resp, st'')).
Proof.
  intros Hf Hn Hext Hsave.
  destruct (post_evaluate_saved est e files st file Hf Hn Hext Hsave)
    as (result & st2 & Heval & _ & Hfs & Hresp).
  exists (respond result), (after_remove e (upload_path e file) st2).
  split; [done|]. split.
  - intros Hrm. unfold after_remove.
    rewrite Hfs, lookup_insert_eq, Hrm. simpl.
    rewrite delete_insert_eq. split; [done|]. apply lookup_delete_eq.
  - intros err.
    destruct (post_evaluate_saved est (with_remove_error err e) files st file
                Hf Hn Hext Hsave)
      as (result' & st2' & Heval' & _ & _ & Hresp').
    change (upload_path (with_remove_error err e) file)
      with (upload_path e file) in *.
    change (evaluate_audio_file est (with_remove_error err e))
      with (evaluate_audio_file est e) in Heval'.
    assert (result' = result) as -> by congruence.
    eauto.
Qed.

(** C1, where the code departs from it. When [file.save] raises after
    it has written a part of a validated upload, the handler answers 500
    from its outer [except] and makes no removal attempt: after the
    request the part is still under the upload path. *)
Theorem partial_save_leaves_artifact est e files st file exc part :
  files !! "file" = Some file →
  filename file ≠ "" →
  has_allowed_extension (filename file) →
  save_outcome e = SaveRaises exc (Some part) →
  ∃ resp st',
    post_evaluate est e files st = (inr resp, st')
    ∧ status resp = 500%Z
    ∧ fs st' !! upload_path e file = Some part
    ∧ engine_calls st' = engine_calls st.
Proof.
  intros Hf Hn Hext Hsave. eexists _, _.
  split; [by eapply post_evaluate_save_raises|]. simpl.
  split; [done|]. split; [apply lookup_insert_eq|done].
Qed.

(** C2, as the code has it. Whatever is posted to [/evaluate], and
    whatever JSON value [get_json()] returns for a post to
    [/evaluate_path], the handler answers with a JSON body; an answer
    with status 200 carries a result whose [success] is true, and every
    other answer has the failure shape: [success] false, an [error]
    message, and no key besides these two and [traceback]. *)
Theorem failure_body_shape est e st :
  (∀ files, ∃ resp st',
      post_evaluate est e files st = (inr resp, st')
      ∧ (status resp = 200%Z →
         ∃ result, body resp = VDict result ∧ succeeded result)
      ∧ (status resp ≠ 200%Z → failure_shape (body resp)))
  ∧ (∀ fds data, ∃ resp st',
        post_evaluate_path_request fds est e (GetJson data) st
        = (inr (JsonAnswer resp), st')
        ∧ (status resp = 200%Z →
           ∃ result, body resp = VDict result ∧ succeeded result)
        ∧ (status resp ≠ 200%Z → failure_shape (body resp))).
Proof.
  split.
  - intros files. destruct (files !! "file") as [file|] eqn:Hf.
    2: { eexists _, _. split; [by apply post_evaluate_no_part|].
         split; [done|]. intros _. apply rejection_shape. }
    destruct (name_check_cases file) as [Hn|[[Hn Hext]|[Hn Hext]]].
    { eexists _, _. split; [by eapply post_evaluate_empty_name|].
      split; [done|]. intros _. apply rejection_shape. }
    { eexists _, _. split; [by eapply post_evaluate_bad_extension|].
      split; [done|]. intros _. apply rejection_shape. }
    destruct (save_outcome e) as [|exc written] eqn:Hsave.
    2: { eexists _, _. split; [by eapply post_evaluate_save_raises|].
         split; [done|]. intros _. apply rejection_shape. }
    destruct (post_evaluate_saved est e files st file Hf Hn Hext Hsave)
      as (result & st2 & _ & Hout & _ & Hresp).
    eexists _, _. split; [done|].
    destruct (respond_cases _ _ _ _ _ _ Hout) as [[Hs ->]|(Hs & -> & Hshape)];
      [simpl; by rewrite lookup_insert_eq|..]; simpl.
    + split; [eauto|done].
    + split; [done|eauto].
  - intros fds data. unfold post_evaluate_path_request, mbind, M_bind, bind.
    destruct (path_json_cases fds est e data st)
      as (resp & st' & -> & [(-> & Hst & Hshape)|(p & result & Hp & Hout & ->)]).
    + exists resp, st. split; [done|].
      split; [intros H200; rewrite H200 in Hst; by destruct Hst as [|[|]]|done].
    + exists (respond result), st'. split; [done|].
      destruct (respond_cases _ _ _ _ _ _ Hout Hp)
        as [[Hs ->]|(Hs & -> & Hshape)]; simpl.
      * split; [eauto|done].
      * split; [done|eauto].
Qed.

(** X23. For a body that is a JSON object, whatever its members:
    [/evaluate_path] answers 400 when the object has no [file_path], 404
    when its [file_path] is a string and nothing is at that path, and
    otherwise, for a string, answers with what [evaluate_audio_file]
    gives for the path: 200 when that succeeded, 500 when not. *)
Theorem path_validation fds est e (members : gmap string json) st :
  ∃ resp st',
    post_evaluate_path_request fds est e (GetJson (JObject members)) st
    = (inr (JsonAnswer resp), st')
    ∧ (members !! "file_path" = None → status resp = 400%Z ∧ st' = st)
    ∧ (∀ p, members !! "file_path" = Some (JStr p) →
         fs st !! p = None → status resp = 404%Z ∧ st' = st)
    ∧ (∀ p, members !! "file_path" = Some (JStr p) →
         is_Some (fs st !! p) →
         ∃ result,
           evaluate_audio_file est e p st = (inr result, st')
           ∧ body resp = VDict result
           ∧ (succeeded result ∧ status resp = 200%Z
              ∨ ¬ succeeded result ∧ status resp = 500%Z)).
Proof.
  unfold post_evaluate_path_request, post_evaluate_path_json, dispatch,
    try_except, evaluate_file_path.
  unfold mbind, M_bind, bind, lift.
  destruct (members !! "file_path") as [v|] eqn:Hm.
  2: { rewrite (object_lacks_param members Hm). eexists _, _.
       split; [done|]. split; [done|]. split; intros; done. }
  destruct (object_has_param members v Hm) as [-> ->].
  destruct (path_json_cases fds est e (JObject members) st)
    as (resp0 & st0 & Hcase & _).
  unfold post_evaluate_path_json, dispatch, try_except, evaluate_file_path
    in Hcase.
  unfold mbind, M_bind, bind, lift in Hcase.
  destruct (object_has_param members v Hm) as [Hl Hg].
  rewrite Hl, Hg in Hcase.
  destruct v as [|b|n|x| |p|items|members'];
    try (rewrite Hcase; eexists _, _; split; [done|];
         split; [done|]; split; intros; done).
  unfold OsPath.exists_. destruct (fs st !! p) as [content|] eqn:Hp; simpl.
  - destruct (evaluate_audio_file_outcome est e p st)
      as (result & st' & Heq & Hout). rewrite Heq.
    exists (respond result), st'.
    split; [unfold respond; by destruct (truthy _)|].
    split; [done|]. split; [intros ? [= <-]; congruence|].
    intros ? [= <-] _. exists result. split; [done|].
    destruct (respond_cases _ _ _ _ _ _ Hout) as [[Hs ->]|(Hs & -> & _)];
      [by rewrite Hp|..]; simpl; eauto.
  - eexists _, _. split; [done|]. split; [done|].
    split; [done|]. intros ? [= <-] [? ?]. congruence.
Qed.

(** C8, where the code departs from it. A JSON body that is the number 5
    has no [file_path], yet is not answered 400: the membership test of
    line 252 raises on it and the handler registered for 500 answers.
    The same happens to an object whose [file_path] is [null], at the
    existence test of line 261. *)
Theorem scalar_body_is_500 fds est e st :
  post_evaluate_path_request fds est e (GetJson (JInt 5)) st
  = (inr (JsonAnswer internal_error), st)
  ∧ post_evaluate_path_request fds est e
      (GetJson (JObject {[ "file_path" := JNull ]})) st
    = (inr (JsonAnswer internal_error), st)
  ∧ status (internal_error (float := float)) = 500%Z.
Proof. split; [reflexivity|]. split; [|reflexivity]. by vm_compute. Qed.

(** C9. [/health] answers 503 and unhealthy while the engine handle is
    unset, 200 and healthy once it is set. With the handle unset the two
    evaluation endpoints never answer 503: a request that fails
    validation gets its 400 or 404, and one that passes it gets 500 with
    the failure shape. *)
Theorem unloaded_engine :
  (status (health_check (float := float) None) = 503%Z
   ∧ ∃ d, body (health_check (float := float) None) = VDict d
          ∧ dict_lookup d "status" = Some (VStr "unhealthy"))
  ∧ (∀ eng : SigMOS float,
       status (health_check (Some eng)) = 200%Z
       ∧ ∃ d, body (health_check (Some eng)) = VDict d
              ∧ dict_lookup d "status" = Some (VStr "healthy"))
  ∧ (∀ e files st, ∃ resp st',
       post_evaluate None e files st = (inr resp, st')
       ∧ (status resp = 400%Z ∨ status resp = 500%Z)
       ∧ (∀ file, files !! "file" = Some file → filename file ≠ "" →
            has_allowed_extension (filename file) →
            status resp = 500%Z ∧ failure_shape (body resp)))
  ∧ (∀ e data st, ∃ resp st',
       post_evaluate_path None e data st = (inr resp, st')
       ∧ (status resp = 400%Z ∨ status resp = 404%Z ∨ status resp = 500%Z)
       ∧ (∀ d p, data = Some d → d !! "file_path" = Some p →
            is_Some (fs st !! p) →
            status resp = 500%Z ∧ failure_shape (body resp))).
Proof.
  split; [split; [done|by eexists]|].
  split; [intros eng; split; [done|by eexists]|].
  split.
  - intros e files st. destruct (files !! "file") as [file|] eqn:Hf.
    2: { eexists _, _. split; [by apply post_evaluate_no_part|].
         split; [by left|done]. }
    destruct (name_check_cases file) as [Hn|[[Hn Hext]|[Hn Hext]]].
    { eexists _, _. split; [by eapply post_evaluate_empty_name|].
      split; [by left|]. intros ? [= <-]. done. }
    { eexists _, _. split; [by eapply post_evaluate_bad_extension|].
      split; [by left|]. intros ? [= <-]. done. }
    destruct (save_outcome e) as [|exc written] eqn:Hsave.
    2: { eexists _, _. split; [by eapply post_evaluate_save_raises|].
         split; [by right|]. intros _ _ _ _. split; [done|].
         apply rejection_shape. }
    destruct (post_evaluate_saved None e files st file Hf Hn Hext Hsave)
      as (result & st2 & _ & Hout & _ & Hresp).
    eexists _, _. split; [done|].
    destruct (respond_no_engine _ _ _ _ _ Hout) as [-> Hshape];
      [simpl; by rewrite lookup_insert_eq|].
    split; [by right|]. done.
  - intros e data st. destruct data as [d|].
    2: { eexists _, _. split; [apply post_evaluate_path_no_param; by left|].
         split; [by left|done]. }
    destruct (d !! "file_path") as [p|] eqn:Hd.
    2: { eexists _, _. split; [apply post_evaluate_path_no_param; eauto|].
         split; [by left|]. intros ? ? [= <-]. congruence. }
    destruct (fs st !! p) as [content|] eqn:Hp.
    2: { eexists _, _. split; [by eapply post_evaluate_path_missing|].
         split; [right; by left|]. intros d' p' [= <-] Hd' [? Hp'].
         rewrite Hd in Hd'. injection Hd' as <-. congruence. }
    destruct (post_evaluate_path_present None e d st p Hd)
      as (result & st' & _ & Hout & Hresp); [by rewrite Hp|].
    eexists _, _. split; [done|].
    destruct (respond_no_engine _ _ _ _ _ Hout) as [-> Hshape];
      [by rewrite Hp|].
    split; [right; by right|]. done.
Qed.

End Endpoints.

(** ** The upload validator *)

Section Validator.

Context {float : Type} `{!Runtime float}.

Implicit Types (est : option (SigMOS float)) (st : state float).

Lemma prefix_app (x t : string) : String.prefix x (x +:+ t) = true.
Proof.
  induction x as [|a x IH]; [apply prefix_empty|]. rewrite app_cons. simpl.
  by destruct (ascii_dec a a).
Qed.

Lemma contains_prefix (s sub : string) :
  String.prefix sub s = true → Str.contains s sub = true.
Proof. intros H. destruct s; cbn [Str.contains]; by rewrite H. Qed.

Lemma contains_app_l (p t sub : string) :
  Str.contains t sub = true → Str.contains (p +:+ t) sub = true.
Proof.
  intros H. induction p as [|a p IH]; [done|]. rewrite app_cons.
  cbn [Str.contains]. rewrite IH. by destruct (String.prefix sub _).
Qed.

Lemma contains_join (sep : string) (l : list string) (x : string) :
  x ∈ l → Str.contains (Str.join sep l) x = true.
Proof.
  induction l as [|y l IH]; intros Hx; [by apply elem_of_nil in Hx|].
  apply elem_of_cons in Hx as [->|Hx].
  - destruct l; simpl.
    + apply contains_prefix. rewrite <- (app_empty_r y) at 2.
      apply prefix_app.
    + apply contains_prefix, prefix_app.
  - specialize (IH Hx). destruct l as [|z l]; [by apply elem_of_nil in Hx|].
    change (Str.join sep (y :: z :: l))
      with (y +:+ sep +:+ Str.join sep (z :: l)).
    by do 2 apply contains_app_l.
Qed.

(** The message of the extension check names every allowed extension,
    in whatever order the set is iterated. *)
Lemma unsupported_format_names_set :
  set_iter ALLOWED_EXTENSIONS ≡ₚ elements ALLOWED_EXTENSIONS →
  names_allowed_set unsupported_format_error = true.
Proof.
  intros Hperm. unfold names_allowed_set. apply forallb_forall.
  intros x Hx. apply list_elem_of_In in Hx. rewrite <- Hperm in Hx.
  unfold unsupported_format_error. by apply contains_app_l, contains_join.
Qed.

(** C7, as the code has it. [/evaluate] answers 400 exactly when the file
    part is absent, the file name is empty, or the name has no allowed
    extension, and then leaves the state as it was; of the three
    rejections only the one for the extension names the allowed set, the
    other two carry fixed messages of their own; a request that passes
    the three checks is processed and answered with 200 or 500. *)
Theorem upload_validation est e files st :
  set_iter ALLOWED_EXTENSIONS ≡ₚ elements ALLOWED_EXTENSIONS →
  ∃ resp st',
    post_evaluate est e files st = (inr resp, st')
    ∧ (status resp = 400%Z ↔
         file_part_absent files ∨ filename_empty files
         ∨ extension_not_allowed files)
    ∧ (status resp = 400%Z →
         st' = st
         ∧ ∃ msg, error_message resp = Some msg
                  ∧ (names_allowed_set msg = true ↔
                       extension_not_allowed files))
    ∧ (status resp ≠ 400%Z → status resp = 200%Z ∨ status resp = 500%Z).
Proof.
  intros Hperm.
  unfold file_part_absent, filename_empty, extension_not_allowed.
  destruct (files !! "file") as [file|] eqn:Hf.
  2: { eexists _, _. split; [by apply post_evaluate_no_part|].
       split; [split; [by left|done]|]. split; [|done].
       intros _. split; [done|]. eexists. split; [done|].
       split; [by vm_compute|]. by intros (? & ? & _). }
  destruct (name_check_cases file) as [Hn|[[Hn Hext]|[Hn Hext]]].
  - eexists _, _. split; [by eapply post_evaluate_empty_name|].
    split; [split; [right; left; eauto|done]|]. split; [|done].
    intros _. split; [done|]. eexists. split; [done|].
    split; [by vm_compute|]. intros (? & [= <-] & ? & _). done.
  - eexists _, _. split; [by eapply post_evaluate_bad_extension|].
    split; [split; [right; right; eauto|done]|]. split; [|done].
    intros _. split; [done|]. eexists. split; [done|].
    split; [eauto|]. intros _. by apply unsupported_format_names_set.
  - assert (¬ (Some file = None ∨ (∃ f, Some file = Some f ∧ filename f = "")
               ∨ ∃ f, Some file = Some f ∧ filename f ≠ ""
                      ∧ ¬ has_allowed_extension (filename f))) as Hvalid.
    { intros [|[(? & [= <-] & ?)|(? & [= <-] & ? & ?)]]; done. }
    destruct (save_outcome e) as [|exc written] eqn:Hsave.
    2: { eexists _, _. split; [by eapply post_evaluate_save_raises|].
         split; [split; [done|by intros ?%Hvalid]|]. split; [done|].
         intros _. by right. }
    destruct (post_evaluate_saved est e files st file Hf Hn Hext Hsave)
      as (result & st2 & _ & Hout & _ & Hresp).
    eexists _, _. split; [done|].
    destruct (respond_cases _ _ _ _ _ _ Hout) as [[Hs ->]|(Hs & -> & _)];
      [simpl; by rewrite lookup_insert_eq|..]; simpl.
    + split; [split; [done|by intros ?%Hvalid]|]. split; [done|].
      intros _. by left.
    + split; [split; [done|by intros ?%Hvalid]|]. split; [done|].
      intros _. by right.
Qed.

End Validator.

(** ** The theorems at work on concrete requests *)

Lemma upload_artifact_removed_witness :
  Exact.files_wav !! "file" = Some Exact.file_wav
  ∧ filename Exact.file_wav ≠ ""
  ∧ has_allowed_extension (filename Exact.file_wav)
  ∧ save_outcome Exact.req_env = SaveOk
  ∧ ∃ resp st',
      post_evaluate (Some Exact.engine) Exact.req_env Exact.files_wav Exact.st0
      = (inr resp, st')
      ∧ (remove_error Exact.req_env = None →
         fs st' = delete (upload_path Exact.req_env Exact.file_wav)
                    (fs Exact.st0)
         ∧ fs st' !! upload_path Exact.req_env Exact.file_wav = None)
      ∧ (∀ err, ∃ st'',
           post_evaluate (Some Exact.engine)
             (with_remove_error err Exact.req_env) Exact.files_wav Exact.st0
           = (inr resp, st'')).
Proof.
  assert (has_allowed_extension (filename Exact.file_wav)) as Hext.
  { apply allowed_file_true. vm_compute. reflexivity. }
  assert (filename Exact.file_wav ≠ "") as Hn by discriminate.
  split; [reflexivity|]. split; [exact Hn|]. split; [exact Hext|].
  split; [reflexivity|].
  exact (upload_artifact_removed (Some Exact.engine) Exact.req_env
           Exact.files_wav Exact.st0 Exact.file_wav eq_refl Hn Hext eq_refl).
Defined.

Lemma mono_run_eq :
  Exact.mono_run
  = (inr (Exact.result_of Exact.mono_run), Exact.mono_run.2).
Proof. by vm_compute. Defined.

Lemma stereo_run_eq :
  Exact.stereo_run
  = (inr (Exact.result_of Exact.stereo_run), Exact.stereo_run.2).
Proof. by vm_compute. Defined.

Lemma mono_run_succeeded : succeeded (Exact.result_of Exact.mono_run).
Proof. by vm_compute. Defined.

Lemma stereo_run_succeeded : succeeded (Exact.result_of Exact.stereo_run).
Proof. by vm_compute. Defined.

Lemma duration_is_rounded_quotient_witness :
  succeeded (Exact.result_of Exact.mono_run)
  ∧ ∃ content audio sr info,
      fs Exact.st_disk !! "/data/m.wav" = Some content
      ∧ sf_read content = inr (audio, sr)
      ∧ sr ≠ 0%Z
      ∧ dict_lookup (Exact.result_of Exact.mono_run) "file_info"
        = Some (VDict info)
      ∧ dict_lookup info "file_size_samples" = Some (VInt (Np.len audio))
      ∧ dict_lookup info "sample_rate" = Some (VInt sr)
      ∧ dict_lookup info "duration_seconds"
        = Some (VFloat (round_nd (truediv (Np.len audio) sr) 2)).
Proof.
  split; [exact mono_run_succeeded|].
  exact (duration_is_rounded_quotient (Some Exact.engine) Exact.req_env
           "/data/m.wav" Exact.st_disk _ _ mono_run_eq mono_run_succeeded).
Defined.

(** Three samples at rate 8 last 0.375 s, reported as 0.38. *)
Example duration_of_mono :
  ∃ info, dict_lookup (Exact.result_of Exact.mono_run) "file_info"
          = Some (VDict info)
          ∧ dict_lookup info "duration_seconds" = Some (VFloat (19 # 50)%Q).
Proof. eexists. split; by vm_compute. Qed.

Lemma stereo_shape :
  decoded_shape (Arr2 [[1%Q; 9%Q]; [2%Q; 9%Q]; [3%Q; 9%Q]]).
Proof. exists 2%nat. split; [lia|]. by repeat constructor. Defined.

Lemma rate_8 : 8%Z ≠ 0%Z.
Proof. discriminate. Defined.

Lemma mono_conversion_witness :
  fs Exact.st_disk !! "/data/s.wav" = Some Exact.stereo
  ∧ sf_read (float := Q) Exact.stereo
    = inr (Arr2 [[1%Q; 9%Q]; [2%Q; 9%Q]; [3%Q; 9%Q]], 8%Z)
  ∧ decoded_shape (Arr2 [[1%Q; 9%Q]; [2%Q; 9%Q]; [3%Q; 9%Q]])
  ∧ 8%Z ≠ 0%Z
  ∧ Some Exact.engine = Some Exact.engine
  ∧ ∃ result st',
      evaluate_audio_file (Some Exact.engine) Exact.req_env "/data/s.wav"
        Exact.st_disk = (inr result, st')
      ∧ ∃ col,
          Forall2 (λ frame x, head frame = Some x)
            [[1%Q; 9%Q]; [2%Q; 9%Q]; [3%Q; 9%Q]] col
          ∧ engine_calls st' = engine_calls Exact.st_disk ++ [(Arr1 col, 8%Z)]
          ∧ succeeded result
          ∧ ∃ info,
              dict_lookup result "file_info" = Some (VDict info)
              ∧ dict_lookup info "converted_to_mono" = Some (VBool true).
Proof.
  do 2 (split; [reflexivity|]). split; [exact stereo_shape|].
  split; [exact rate_8|]. split; [reflexivity|].
  exact (mono_conversion (Some Exact.engine) Exact.req_env "/data/s.wav"
           Exact.st_disk Exact.stereo
           (Arr2 [[1%Q; 9%Q]; [2%Q; 9%Q]; [3%Q; 9%Q]]) 8 Exact.engine
           eq_refl eq_refl stereo_shape rate_8 eq_refl).
Defined.

(** The stereo file, run: a success that says it was converted. *)
Example stereo_is_converted :
  succeeded (Exact.result_of Exact.stereo_run)
  ∧ ∃ info,
      dict_lookup (Exact.result_of Exact.stereo_run) "file_info"
      = Some (VDict info)
      ∧ dict_lookup info "converted_to_mono" = Some (VBool true)
      ∧ dict_lookup info "file_size_samples" = Some (VInt 3).
Proof. split; [by vm_compute|]. eexists. repeat split; by vm_compute. Qed.

(** Of the frames (1,9), (2,9), (3,9) the engine is given 1, 2, 3. *)
Example engine_sees_first_channel :
  engine_calls Exact.stereo_run.2 = [(Arr1 [1%Q; 2%Q; 3%Q], 8%Z)].
Proof. by vm_compute. Qed.

Lemma display_is_rounded_raw_witness :
  succeeded (Exact.result_of Exact.mono_run)
  ∧ ∃ eng mono sr sc mos raw,
      Some Exact.engine = Some eng
      ∧ engine_calls Exact.mono_run.2
        = engine_calls Exact.st_disk ++ [(mono, sr)]
      ∧ run eng mono sr = inr sc
      ∧ dict_lookup (Exact.result_of Exact.mono_run) "mos_scores"
        = Some (VDict mos)
      ∧ dict_lookup (Exact.result_of Exact.mono_run) "raw_scores"
        = Some (VDict raw)
      ∧ length mos = 7%nat ∧ length raw = 7%nat
      ∧ ∀ dim, dim ∈ DIMENSIONS →
          ∃ x, score_of sc dim = Some x
               ∧ entry_of raw dim = Some (VFloat x)
               ∧ entry_of mos dim = Some (VFloat (round_nd x 3)).
Proof.
  split; [exact mono_run_succeeded|].
  exact (display_is_rounded_raw (Some Exact.engine) Exact.req_env
           "/data/m.wav" Exact.st_disk _ _ mono_run_eq mono_run_succeeded).
Defined.

(** The engine's 3.1234 for COL is shown as 3.123 and kept as it is in
    the raw rendering. *)
Example coloration_of_mono :
  ∃ mos raw,
    dict_lookup (Exact.result_of Exact.mono_run) "mos_scores"
    = Some (VDict mos)
    ∧ dict_lookup (Exact.result_of Exact.mono_run) "raw_scores"
      = Some (VDict raw)
    ∧ entry_of mos "COL" = Some (VFloat (3123 # 1000)%Q)
    ∧ entry_of raw "COL" = Some (VFloat (15617 # 5000)%Q).
Proof. eexists _, _. repeat split; by vm_compute. Qed.

Lemma score_order_fixed_witness :
  succeeded (Exact.result_of Exact.mono_run)
  ∧ succeeded (Exact.result_of Exact.stereo_run)
  ∧ ∃ mos raw mos2 raw2,
      dict_lookup (Exact.result_of Exact.mono_run) "mos_scores"
      = Some (VDict mos)
      ∧ dict_lookup (Exact.result_of Exact.mono_run) "raw_scores"
        = Some (VDict raw)
      ∧ dict_lookup (Exact.result_of Exact.stereo_run) "mos_scores"
        = Some (VDict mos2)
      ∧ dict_lookup (Exact.result_of Exact.stereo_run) "raw_scores"
        = Some (VDict raw2)
      ∧ dimension <$> keys raw = Some <$> DIMENSIONS
      ∧ dimension <$> keys mos = Some <$> DIMENSIONS
      ∧ keys raw = (λ dim, "MOS_" +:+ dim) <$> DIMENSIONS
      ∧ keys raw2 = keys raw
      ∧ keys mos2 = keys mos.
Proof.
  split; [exact mono_run_succeeded|]. split; [exact stereo_run_succeeded|].
  exact (score_order_fixed
           (Some Exact.engine) Exact.req_env "/data/m.wav" Exact.st_disk _ _
           (Some Exact.engine) Exact.req_env "/data/s.wav" Exact.st_disk _ _
           mono_run_eq mono_run_succeeded
           stereo_run_eq stereo_run_succeeded).
Defined.

Lemma upload_validation_witness :
  set_iter ALLOWED_EXTENSIONS ≡ₚ elements ALLOWED_EXTENSIONS
  ∧ ∃ resp st',
      post_evaluate (Some Exact.engine) Exact.req_env Exact.files_txt
        Exact.st0 = (inr resp, st')
      ∧ (status resp = 400%Z ↔
           file_part_absent Exact.files_txt ∨ filename_empty Exact.files_txt
           ∨ extension_not_allowed Exact.files_txt)
      ∧ (status resp = 400%Z →
           st' = Exact.st0
           ∧ ∃ msg, error_message resp = Some msg
                    ∧ (names_allowed_set msg = true ↔
                         extension_not_allowed Exact.files_txt))
      ∧ (status resp ≠ 400%Z → status resp = 200%Z ∨ status resp = 500%Z).
Proof.
  split; [reflexivity|].
  exact (upload_validation (Some Exact.engine) Exact.req_env Exact.files_txt
           Exact.st0 (reflexivity _)).
Defined.

(** The claim as worded fails on a request without a file part: it is
    rejected with 400, but its message names no extension. *)
Lemma rejection_without_allowed_set :
  ¬ rejects_naming_allowed_set (Some Exact.engine) Exact.req_env ∅ Exact.st0.
Proof.
  unfold rejects_naming_allowed_set. intros [_ Hclaim].
  destruct Hclaim as (resp & st' & msg & Hrun & _ & Hmsg & Hnames).
  { left. apply lookup_empty. }
  rewrite post_evaluate_no_part in Hrun by apply lookup_empty.
  injection Hrun as <- <-. injection Hmsg as <-.
  by vm_compute in Hnames.
Qed.

(** The same request, run: status 400 and the fixed message. *)
Example no_file_part_response :
  post_evaluate (Some Exact.engine) Exact.req_env ∅ Exact.st0
  = (inr (Response (VDict [ ("success", VBool false);
                            ("error", VStr "没有上传文件") ]) 400),
     Exact.st0).
Proof. by vm_compute. Qed.

(** An upload whose scoring fails is removed all the same. *)
Example removed_after_scoring_failure :
  ∃ resp st',
    post_evaluate (Some Exact.failing_engine) Exact.req_env Exact.files_wav
      Exact.st0 = (inr resp, st')
    ∧ status resp = 500%Z ∧ fs st' = ∅.
Proof. eexists _, _. split; [by vm_compute|]. split; by vm_compute. Qed.

(** An upload that does not decode is removed all the same. *)
Example removed_after_decode_failure :
  ∃ resp st',
    post_evaluate (Some Exact.engine) Exact.req_env
      {[ "file" := {| filename := "empty.mp3"; stream := [] |} ]}
      Exact.st0 = (inr resp, st')
    ∧ status resp = 500%Z ∧ fs st' = ∅.
Proof. eexists _, _. split; [by vm_compute|]. split; by vm_compute. Qed.

(** Called on a path where nothing is, [evaluate_audio_file] returns a
    dict with an [error] and no [success]. A handler calls it on a path
    it has just saved to or just found; the state passed from the one
    step to the next has no other writer, so the handlers here never
    get this dict. *)
Example missing_path_result :
  evaluate_audio_file (Some Exact.engine) Exact.req_env "/data/none.wav"
    Exact.st_disk
  = (inr [ ("error", VStr "音频文件不存在: /data/none.wav") ], Exact.st_disk).
Proof. by vm_compute. Qed.

(** Were that dict to reach a handler, as when the file is taken away
    between the handler's step and the test of line 73, the answer would
    be 500 with a body that has no [success]. *)
Example error_only_answer :
  respond (float := Q) [ ("error", VStr "音频文件不存在: /data/none.wav") ]
  = Response (VDict [ ("error", VStr "音频文件不存在: /data/none.wav") ]) 500
  ∧ ¬ failure_shape
        (VDict [ ("error", VStr "音频文件不存在: /data/none.wav") ]
         : value Q).
Proof.
  split; [reflexivity|]. intros (d & [= <-] & Hsuccess & _). discriminate.
Qed.

(** When [file.save] raises after writing a part, the handler answers 500
    and makes no removal attempt. *)
Example save_failure_response :
  ∃ resp st',
    post_evaluate (Some Exact.engine)
      {| uuid4 := "0b0c7f3e"; now_isoformat := "2024-01-01T00:00:00";
         save_outcome := SaveRaises (Exn "OSError" "No space left on device")
                           (Some [Byte.x02]);
         remove_error := None |}
      Exact.files_wav Exact.st0 = (inr resp, st')
    ∧ status resp = 500%Z
    ∧ fs st' !! "uploads/0b0c7f3e_Ab.WAV" = Some [Byte.x02].
Proof. eexists _, _. split; [by vm_compute|]. split; by vm_compute. Qed.

(** ** Letter case and the name check *)

Section LetterCase.

Lemma lower_ascii_dot c :
  Ascii.eqb (Str.lower_ascii c) "."%char = Ascii.eqb c "."%char.
Proof. by destruct c as [[] [] [] [] [] [] [] []]; vm_compute. Qed.

Lemma lower_ascii_idemp c :
  Str.lower_ascii (Str.lower_ascii c) = Str.lower_ascii c.
Proof. by destruct c as [[] [] [] [] [] [] [] []]; vm_compute. Qed.

Lemma lower_idemp s : Str.lower (Str.lower s) = Str.lower s.
Proof.
  induction s as [|a s IH]; simpl; [done|]. by rewrite lower_ascii_idemp, IH.
Qed.

Lemma lower_app s t : Str.lower (s +:+ t) = Str.lower s +:+ Str.lower t.
Proof.
  induction s as [|a s IH]; [done|]. rewrite app_cons. simpl.
  by rewrite IH, app_cons.
Qed.

(** Lowering a name moves no dot: the split at the last dot of the
    lowered name is the lowered split of the name. *)
Lemma split_last_lower s :
  Str.split_last "."%char (Str.lower s)
  = (λ pt, (Str.lower pt.1, Str.lower pt.2)) <$> Str.split_last "."%char s.
Proof.
  induction s as [|a s IH]; simpl; [done|]. rewrite IH, lower_ascii_dot.
  destruct (Str.split_last "."%char s) as [[p t]|]; simpl; [done|].
  by destruct (Ascii.eqb a ".").
Qed.

Lemma after_last_lower s :
  Str.after_last "."%char (Str.lower s)
  = Str.lower <$> Str.after_last "."%char s.
Proof.
  unfold Str.after_last. rewrite split_last_lower.
  by destruct (Str.split_last "."%char s) as [[p t]|].
Qed.

(** X1. The verdict of [allowed_file] does not depend on letter case: two
    names that are equal once lowered get the same verdict, and so a name
    and its lowered form do. *)
Theorem allowed_file_ignores_case (name1 name2 : string) :
  Str.lower name1 = Str.lower name2 →
  allowed_file name1 = allowed_file name2
  ∧ allowed_file (Str.lower name1) = allowed_file name1.
Proof.
  intros Heq.
  assert (∀ name, allowed_file (Str.lower name) = allowed_file name) as Hl.
  { intros name. rewrite !allowed_file_unfold, after_last_lower.
    destruct (Str.after_last "."%char name) as [ext|]; simpl; [|done].
    by rewrite lower_idemp. }
  split; [|apply Hl]. by rewrite <- (Hl name1), <- (Hl name2), Heq.
Qed.

Lemma allowed_file_ignores_case_witness :
  Str.lower "Take.Flac" = Str.lower "TAKE.FLAC"
  ∧ allowed_file "Take.Flac" = allowed_file "TAKE.FLAC"
  ∧ allowed_file (Str.lower "Take.Flac") = allowed_file "Take.Flac".
Proof.
  split; [reflexivity|].
  exact (allowed_file_ignores_case "Take.Flac" "TAKE.FLAC" eq_refl).
Defined.

Lemma endswith_spec s suffix :
  Pretty.endswith s suffix = true ↔ ∃ stem, s = stem +:+ suffix.
Proof.
  induction s as [|a s IH]; cbn [Pretty.endswith].
  - destruct (String.eqb_spec "" suffix) as [<-|Hne].
    + split; [by exists ""|done].
    + split; [done|]. intros (stem & Hs). destruct stem as [|b stem].
      * by destruct Hne.
      * by rewrite app_cons in Hs.
  - destruct (String.eqb_spec (String a s) suffix) as [<-|Hne].
    + split; [by exists ""|done].
    + rewrite IH. split.
      * intros [stem ->]. by exists (String a stem).
      * intros (stem & Hs). destruct stem as [|b stem].
        -- by destruct Hne.
        -- rewrite app_cons in Hs. injection Hs as -> ->. eauto.
Qed.

Lemma allowed_extension_cases (ext : string) :
  ext ∈ ALLOWED_EXTENSIONS ↔
    ext = "wav" ∨ ext = "mp3" ∨ ext = "flac" ∨ ext = "m4a".
Proof. unfold ALLOWED_EXTENSIONS. set_unfold. tauto. Qed.

(** X2. The file filter of the test client's batch mode selects exactly
    the names the server's [allowed_file] accepts. *)
Theorem batch_filter_agrees_with_allowed_file (file : string) :
  Pretty.is_audio_name file = true ↔ allowed_file file = inr true.
Proof.
  rewrite allowed_file_true. unfold has_allowed_extension, Pretty.is_audio_name.
  rewrite existsb_exists. split.
  - intros (suffix & Hin & Hends).
    apply endswith_spec in Hends as [stem Hstem].
    assert (∃ ext, suffix = "." +:+ ext ∧ ext ∈ ALLOWED_EXTENSIONS
                   ∧ Str.contains ext "." = false) as (ext & -> & Hext & Hno).
    { simpl in Hin.
      destruct Hin as [<- | [<- | [<- | [<- | Hnil]]]]; [..|destruct Hnil];
        eexists; (split; [reflexivity|]); (split; [|by vm_compute]);
        apply allowed_extension_cases; tauto. }
    change (stem +:+ "." +:+ ext) with (stem +:+ String "."%char ext) in Hstem.
    pose proof (split_last_complete "."%char stem ext Hno) as Hsplit.
    rewrite <- Hstem, split_last_lower in Hsplit.
    unfold Str.after_last.
    destruct (Str.split_last "."%char file) as [[p t]|]; [|done].
    injection Hsplit as _ <-. by exists t.
  - intros (ext & Hafter & Hext). unfold Str.after_last in Hafter.
    destruct (Str.split_last "."%char file) as [[p t]|] eqn:Hs; [|done].
    injection Hafter as ->. apply split_last_sound in Hs as [-> _].
    exists ("." +:+ Str.lower ext). split.
    + apply allowed_extension_cases in Hext.
      destruct Hext as [-> | [-> | [-> | ->]]]; simpl; tauto.
    + apply endswith_spec. exists (Str.lower p). by rewrite lower_app.
Qed.

End LetterCase.

(** ** More on the orchestrator *)

Section OrchestratorMore.

Context {float : Type} `{!Runtime float}.

Implicit Types (est : option (SigMOS float)) (st : state float).

(** Two readings of the same lookup, decode or engine call agree. *)
Ltac same_reads :=
  repeat match goal with
         | H1 : ?a = ?b, H2 : ?a = ?c |- _ =>
             rewrite H1 in H2; simplify_eq
         end.

Lemma channel_reduction_fun (audio mono mono' : ndarray float) conv conv' :
  channel_reduction audio mono conv →
  channel_reduction audio mono' conv' →
  mono' = mono ∧ conv' = conv.
Proof.
  intros H1 H2. destruct H1 as [samples|frames col Hcol]; inversion H2; subst.
  - done.
  - split; [|done]. f_equal.
    match goal with Hc : Forall2 _ frames ?c |- _ =>
      apply mapM_Some in Hc; apply mapM_Some in Hcol; congruence end.
Qed.

Lemma channel_reduction_column (frames : list (list float)) mono conv :
  channel_reduction (Arr2 frames) mono conv →
  ∃ col, mapM head frames = Some col ∧ mono = Arr1 col ∧ conv = true.
Proof.
  inversion 1; subst. eexists. split; [by apply mapM_Some|done].
Qed.

(** X3. [evaluate_audio_file] never raises and never changes the file
    system; it calls the engine at most once, and exactly once when its
    result is a success. *)
Theorem evaluate_audio_file_frame est e path st :
  ∃ result st',
    evaluate_audio_file est e path st = (inr result, st')
    ∧ fs st' = fs st
    ∧ (engine_calls st' = engine_calls st
       ∨ ∃ call, engine_calls st' = engine_calls st ++ [call])
    ∧ (succeeded result →
       ∃ call, engine_calls st' = engine_calls st ++ [call]).
Proof.
  destruct (evaluate_audio_file_outcome est e path st)
    as (result & st' & Heq & Hout).
  exists result, st'. split; [done|].
  split; [by eapply eval_outcome_fs|].
  destruct Hout; (split; [eauto|]); intros Hs; try discriminate Hs; eauto.
Qed.

(** X4. The result of [evaluate_audio_file] is a success exactly when
    the path is there, its content decodes, the rate is not zero, the
    channel reduction goes through, the engine handle is set and the
    engine returns scores for the reduced audio. *)
Theorem evaluate_audio_file_succeeds_iff est e path st :
  ∃ result st',
    evaluate_audio_file est e path st = (inr result, st')
    ∧ (succeeded result ↔
       ∃ content audio sr mono converted eng sc,
         fs st !! path = Some content
         ∧ sf_read content = inr (audio, sr)
         ∧ sr ≠ 0%Z
         ∧ channel_reduction audio mono converted
         ∧ est = Some eng
         ∧ run eng mono sr = inr sc).
Proof.
  destruct (evaluate_audio_file_outcome est e path st)
    as (result & st' & Heq & Hout).
  exists result, st'. split; [done|]. split.
  - intros Hs.
    destruct (succeeded_inv _ _ _ _ _ _ Hout Hs)
      as (content & audio & sr & mono & conv & eng & sc
          & ? & ? & ? & ? & ? & ? & _).
    by exists content, audio, sr, mono, conv, eng, sc.
  - intros (content & audio & sr & mono & conv & eng & sc
            & Hfs & Hread & Hsr & Hred & Hest & Hrun).
    destruct Hout; simplify_eq; same_reads; try done.
    + apply channel_reduction_column in Hred as (col & Hcol & _). congruence.
    + match goal with Hr : channel_reduction _ _ _ |- _ =>
        destruct (channel_reduction_fun _ _ _ _ _ Hred Hr) as [-> ->] end.
      congruence.
Qed.

(** X5. A file that is there but does not decode makes [/evaluate_path]
    answer 500 with the decoder's message as [error]; the engine is not
    called and the state is as before. *)
Theorem undecodable_file_is_500 est e (d : gmap string string) st p
    content exc :
  d !! "file_path" = Some p →
  fs st !! p = Some content →
  sf_read content = inl exc →
  post_evaluate_path est e (Some d) st
  = (inr (Response (VDict [ ("success", VBool false);
                            ("error", VStr (exn_str exc));
                            ("traceback", VStr (format_exc exc)) ]) 500),
     st).
Proof.
  intros Hd Hp Hread.
  destruct (post_evaluate_path_present est e d st p Hd)
    as (result & st' & _ & Hout & ->); [by rewrite Hp|].
  destruct Hout; simplify_eq; same_reads; done.
Qed.

(** X7. When the engine raises on the reduced audio, [/evaluate_path]
    answers 500 with the engine's message as [error], and the engine has
    been called once, on the reduced audio and the decoded rate. *)
Theorem engine_error_is_500 est e (d : gmap string string) st p
    content audio sr mono converted eng exc :
  d !! "file_path" = Some p →
  fs st !! p = Some content →
  sf_read content = inr (audio, sr) →
  sr ≠ 0%Z →
  channel_reduction audio mono converted →
  est = Some eng →
  run eng mono sr = inl exc →
  post_evaluate_path est e (Some d) st
  = (inr (Response (VDict [ ("success", VBool false);
                            ("error", VStr (exn_str exc));
                            ("traceback", VStr (format_exc exc)) ]) 500),
     State (fs st) (engine_calls st ++ [(mono, sr)])).
Proof.
  intros Hd Hp Hread Hsr Hred Hest Hrun.
  destruct (post_evaluate_path_present est e d st p Hd)
    as (result & st' & _ & Hout & ->); [by rewrite Hp|].
  destruct Hout; simplify_eq; same_reads; try done.
  - apply channel_reduction_column in Hred as (col & Hcol & _). congruence.
  - match goal with Hr : channel_reduction _ _ _ |- _ =>
      destruct (channel_reduction_fun _ _ _ _ _ Hred Hr) as [-> ->] end.
    by same_reads.
  - match goal with Hr : channel_reduction _ _ _ |- _ =>
      destruct (channel_reduction_fun _ _ _ _ _ Hred Hr) as [-> ->] end.
    congruence.
Qed.

(** X8. Audio that decodes to no frames is not turned away: with a rate
    other than 0 and the handle set, the engine is called on the empty
    sample sequence, and if it returns scores the result is a success
    that reports 0 samples. *)
Theorem empty_audio_reaches_engine est e path st content audio sr eng :
  fs st !! path = Some content →
  sf_read content = inr (audio, sr) →
  Np.len audio = 0%Z →
  sr ≠ 0%Z →
  est = Some eng →
  ∃ result st',
    evaluate_audio_file est e path st = (inr result, st')
    ∧ engine_calls st' = engine_calls st ++ [(Arr1 [], sr)]
    ∧ (∀ sc, run eng (Arr1 []) sr = inr sc →
         succeeded result
         ∧ ∃ info, dict_lookup result "file_info" = Some (VDict info)
                   ∧ dict_lookup info "file_size_samples" = Some (VInt 0)).
Proof.
  intros Hfs Hread Hlen Hsr Hest.
  assert (∃ conv, channel_reduction audio (Arr1 []) conv) as [conv Hred].
  { destruct audio as [[|??]|[|??]]; try done.
    - exists false. constructor.
    - exists true. by repeat constructor. }
  destruct (evaluate_audio_file_outcome est e path st)
    as (result & st' & Heq & Hout).
  exists result, st'. split; [done|].
  destruct Hout; simplify_eq; same_reads;
    try match goal with Hr : channel_reduction _ _ _ |- _ =>
          destruct (channel_reduction_fun _ _ _ _ _ Hred Hr) as [-> ->] end.
  - apply channel_reduction_column in Hred as (col & Hcol & _). congruence.
  - split; [done|]. intros sc Hsc. congruence.
  - split; [done|]. intros sc' Hsc. split; [done|].
    eexists. split; [reflexivity|]. simpl. by rewrite Hlen.
Qed.

End OrchestratorMore.

(** ** More on the endpoints *)

Section EndpointsMore.

Context {float : Type} `{!Runtime float}.

Implicit Types (est : option (SigMOS float)) (st : state float).

Lemma eval_outcome_calls est e path st result st' :
  eval_outcome est e path st result st' →
  (engine_calls st' = engine_calls st ∧ ¬ succeeded result)
  ∨ ∃ call, engine_calls st' = engine_calls st ++ [call].
Proof. destruct 1; first [by left | right; by eexists]. Qed.

Lemma respond_status (result : list (string * value float)) :
  (status (respond result) = 200%Z
   ∧ truthy (dict_get result "success" (VBool false)) = true)
  ∨ (status (respond result) = 500%Z
     ∧ truthy (dict_get result "success" (VBool false)) = false).
Proof. unfold respond. destruct (truthy _); eauto. Qed.

Lemma respond_200_succeeded est e path st result st' :
  eval_outcome est e path st result st' →
  status (respond result) = 200%Z →
  succeeded result.
Proof. destruct 1; done. Qed.

Lemma after_remove_calls e path st :
  engine_calls (after_remove e path st) = engine_calls st.
Proof.
  unfold after_remove. destruct (fs st !! path); [|done].
  by destruct (remove_error e).
Qed.

(** X9. [/evaluate_path] never changes the file system, whatever it is
    sent: the file it is pointed at stays. It calls the engine at most
    once, and exactly once when it answers 200. When [get_json()]
    returns a body, the answer is JSON with status 200, 400, 404 or 500,
    and the engine is called only for 200 or 500; when the framework
    aborts the request, the answer has the abort's status and nothing
    else happens. *)
Theorem path_mode_keeps_files fds est e request st :
  ∃ a st',
    post_evaluate_path_request fds est e request st = (inr a, st')
    ∧ fs st' = fs st
    ∧ (engine_calls st' = engine_calls st
       ∨ ∃ call, engine_calls st' = engine_calls st ++ [call])
    ∧ match request with
      | GetJson data =>
          (∃ resp, a = JsonAnswer resp)
          ∧ (answer_status a = 200%Z ∨ answer_status a = 400%Z
             ∨ answer_status a = 404%Z ∨ answer_status a = 500%Z)
          ∧ (answer_status a = 400%Z ∨ answer_status a = 404%Z →
             engine_calls st' = engine_calls st)
          ∧ (answer_status a = 200%Z →
             ∃ call, engine_calls st' = engine_calls st ++ [call])
      | GetJsonAborts code => answer_status a = code ∧ st' = st
      end.
Proof.
  destruct request as [data|code].
  2: { eexists _, _. split; [done|]. split; [done|]. split; [by left|].
       split; [|done]. unfold handle_http_exception.
       destruct (Z.eqb_spec code 413) as [->|]; [done|].
       by destruct (Z.eqb_spec code 500) as [->|]. }
  unfold post_evaluate_path_request, mbind, M_bind, bind.
  destruct (path_json_cases fds est e data st)
    as (resp & st' & -> & [(-> & Hst & Hshape)|(p & result & Hp & Hout & ->)]).
  - exists (JsonAnswer resp), st. split; [done|]. split; [done|].
    split; [by left|]. split; [by eexists|]. split; [simpl; tauto|].
    split; [done|]. simpl. intros H200. rewrite H200 in Hst.
    by destruct Hst as [|[|]].
  - exists (JsonAnswer (respond result)), st'. split; [done|].
    split; [by eapply eval_outcome_fs|].
    pose proof (respond_200_succeeded _ _ _ _ _ _ Hout) as H200.
    split; [|split; [by eexists|]]; simpl;
      destruct (eval_outcome_calls _ _ _ _ _ _ Hout) as [[Hcalls Hns]|Hcall];
      destruct (respond_status result) as [[Hst _]|[Hst _]];
      rewrite ?Hst in *; eauto;
      try (split; [tauto|]; split; [by intros [|]|]; intros; try done;
           by destruct Hns; apply H200).
Qed.

(** X10. [/evaluate] touches no path but the one it stores the upload
    under, whatever it is sent and however saving, evaluating and
    removing go; it calls the engine at most once, and once when it
    answers 200. *)
Theorem upload_touches_only_its_path est e files st :
  ∃ resp st',
    post_evaluate est e files st = (inr resp, st')
    ∧ (∀ q, (∀ file, files !! "file" = Some file → q ≠ upload_path e file) →
         fs st' !! q = fs st !! q)
    ∧ (engine_calls st' = engine_calls st
       ∨ ∃ call, engine_calls st' = engine_calls st ++ [call])
    ∧ (status resp = 200%Z →
       ∃ call, engine_calls st' = engine_calls st ++ [call]).
Proof.
  destruct (files !! "file") as [file|] eqn:Hf.
  2: { eexists _, _. split; [by apply post_evaluate_no_part|].
       split; [done|]. split; [by left|done]. }
  destruct (name_check_cases file) as [Hn|[[Hn Hext]|[Hn Hext]]].
  { eexists _, _. split; [by eapply post_evaluate_empty_name|].
    split; [done|]. split; [by left|done]. }
  { eexists _, _. split; [by eapply post_evaluate_bad_extension|].
    split; [done|]. split; [by left|done]. }
  destruct (save_outcome e) as [|exc written] eqn:Hsave.
  2: { eexists _, _. split; [by eapply post_evaluate_save_raises|].
       simpl. split; [|split; [by left|done]].
       intros q Hq. specialize (Hq file eq_refl).
       destruct written; [by rewrite lookup_insert_ne|done]. }
  destruct (post_evaluate_saved est e files st file Hf Hn Hext Hsave)
    as (result & st2 & _ & Hout & Hfs & Hresp).
  eexists _, _. split; [done|]. split.
  - intros q Hq. specialize (Hq file eq_refl). unfold after_remove.
    destruct (fs st2 !! upload_path e file), (remove_error e); simpl;
      rewrite Hfs, ?lookup_delete_ne by done; by rewrite lookup_insert_ne.
  - rewrite after_remove_calls.
    pose proof (respond_200_succeeded _ _ _ _ _ _ Hout) as H200.
    destruct (eval_outcome_calls _ _ _ _ _ _ Hout) as [[Hcalls Hns]|Hcall];
      simpl in *; [|eauto].
    split; [by left|]. intros Hst. by destruct Hns; apply H200.
Qed.

(** X11. When a validated upload has been saved and [os.remove] raises,
    the error is swallowed and the upload stays: after the request the
    upload path holds the uploaded bytes. *)
Theorem failed_removal_leaves_upload est e files st file exc :
  files !! "file" = Some file →
  filename file ≠ "" →
  has_allowed_extension (filename file) →
  save_outcome e = SaveOk →
  remove_error e = Some exc →
  ∃ resp st',
    post_evaluate est e files st = (inr resp, st')
    ∧ (status resp = 200%Z ∨ status resp = 500%Z)
    ∧ fs st' = <[upload_path e file := stream file]> (fs st).
Proof.
  intros Hf Hn Hext Hsave Hrm.
  destruct (post_evaluate_saved est e files st file Hf Hn Hext Hsave)
    as (result & st2 & _ & Hout & Hfs & Hresp).
  eexists _, _. split; [done|]. split.
  - destruct (respond_status result) as [[-> _]|[-> _]]; eauto.
  - unfold after_remove. rewrite Hrm.
    by destruct (fs st2 !! upload_path e file).
Qed.

(** X12. When [file.save] raises for a validated upload, [/evaluate]
    answers 500 with the exception's message after a fixed prefix, and
    goes no further: nothing is evaluated, and what the failed save
    wrote, if anything, is not removed. *)
Theorem save_failure_answer est e files st file exc written :
  files !! "file" = Some file →
  filename file ≠ "" →
  has_allowed_extension (filename file) →
  save_outcome e = SaveRaises exc written →
  ∃ resp st',
    post_evaluate est e files st = (inr resp, st')
    ∧ status resp = 500%Z
    ∧ body resp = VDict [ ("success", VBool false);
                          ("error",
                            VStr ("处理文件时出错: " +:+ exn_str exc)) ]
    ∧ engine_calls st' = engine_calls st
    ∧ match written with
      | Some part => fs st' = <[upload_path e file := part]> (fs st)
      | None => fs st' = fs st
      end.
Proof.
  intros Hf Hn Hext Hsave. eexists _, _.
  split; [by eapply post_evaluate_save_raises|]. simpl.
  do 3 (split; [done|]). by destruct written.
Qed.

Lemma basename_of_upload (name : string) :
  Str.contains name "/" = false →
  OsPath.basename (OsPath.join UPLOAD_FOLDER name) = name.
Proof.
  intros Hno. unfold OsPath.join.
  assert (String.prefix "/" name = false) as ->.
  { destruct (String.prefix "/" name) eqn:Hp; [|done].
    apply contains_prefix in Hp. congruence. }
  change (String.eqb UPLOAD_FOLDER "" || String.prefix "/" (Str.rev UPLOAD_FOLDER))
    with false. cbv iota.
  unfold OsPath.basename.
  change (UPLOAD_FOLDER +:+ "/" +:+ name)
    with (UPLOAD_FOLDER +:+ String "/"%char name).
  by rewrite split_last_complete.
Qed.

(** X13. The [filename] a successful [/evaluate] reports is the name the
    upload was stored under, the generated identifier, an underscore and
    the sanitized name, not the name the client sent (given that the
    stored name has no slash in it). *)
Theorem upload_reports_stored_name est e files st file :
  files !! "file" = Some file →
  filename file ≠ "" →
  has_allowed_extension (filename file) →
  save_outcome e = SaveOk →
  Str.contains (uuid4 e +:+ "_" +:+ secure_filename (filename file)) "/"
  = false →
  ∃ resp st',
    post_evaluate est e files st = (inr resp, st')
    ∧ (status resp = 200%Z →
       ∃ result info,
         body resp = VDict result
         ∧ dict_lookup result "file_info" = Some (VDict info)
         ∧ dict_lookup info "filename"
           = Some (VStr (uuid4 e +:+ "_"
                         +:+ secure_filename (filename file)))).
Proof.
  intros Hf Hn Hext Hsave Hno.
  destruct (post_evaluate_saved est e files st file Hf Hn Hext Hsave)
    as (result & st2 & _ & Hout & Hfs & Hresp).
  eexists _, _. split; [done|]. intros H200.
  pose proof (respond_200_succeeded _ _ _ _ _ _ Hout H200) as Hs.
  destruct (succeeded_inv _ _ _ _ _ _ Hout Hs)
    as (? & ? & ? & ? & ? & ? & ? & _ & _ & _ & _ & _ & _ & -> & _).
  eexists _, _. split; [done|]. split; [reflexivity|]. simpl.
  unfold upload_path. by rewrite basename_of_upload.
Qed.


End EndpointsMore.

(** ** Start-up and the informational endpoints *)

Section StartupFacts.

Context {float : Type} `{!Runtime float}.

Variable current_dir : string.
Variable new_SigMOS : string → res (SigMOS float).

(** X15. [init_sigmos_model] returns [True] exactly when the model file
    is there and the constructor returns an engine, and then the handle
    is that engine; when it returns [False] the handle is what it was.
    The model directory is set either way. *)
Theorem init_sigmos_model_result (g : globals float) (st : state float) :
  let model_dir :=
    OsPath.join (OsPath.join current_dir "ICASSP2024") "sigmos" in
  let model_file := OsPath.join model_dir MODEL_FILE_NAME in
  ∃ ok g',
    init_sigmos_model current_dir new_SigMOS g st = (ok, g')
    ∧ g_model_dir g' = Some model_dir
    ∧ (ok = true ↔
         is_Some (fs st !! model_file)
         ∧ ∃ eng, new_SigMOS model_dir = inr eng)
    ∧ (ok = true →
         ∃ eng, new_SigMOS model_dir = inr eng
                ∧ g_sigmos_estimator g' = Some eng)
    ∧ (ok = false → g_sigmos_estimator g' = g_sigmos_estimator g).
Proof.
  intros model_dir model_file.
  unfold init_sigmos_model, init_sigmos_model_try.
  fold model_dir. fold model_file.
  destruct (fs st !! model_file) as [content|] eqn:Hfs; simpl.
  - destruct (new_SigMOS model_dir) as [exc|eng] eqn:Hnew.
    + eexists _, _. split; [done|]. split; [done|].
      split; [split; [done|by intros [_ [? ?]]]|]. done.
    + eexists _, _. split; [done|]. split; [done|].
      split; [split; eauto|]. split; eauto. done.
  - eexists _, _. split; [done|]. split; [done|].
    split; [split; [done|by intros [[? ?] _]]|]. done.
Qed.

(** X16. [main] either exits with code 1, when the model file is missing
    or the constructor raised, or goes on to serve with the handle set:
    a process started through [main] never serves with the handle unset,
    and [/health] answers 200 there. *)
Theorem serving_is_healthy (st : state float) :
  let model_dir :=
    OsPath.join (OsPath.join current_dir "ICASSP2024") "sigmos" in
  let model_file := OsPath.join model_dir MODEL_FILE_NAME in
  match main current_dir new_SigMOS initial_globals st with
  | Exited code =>
      code = 1%Z
      ∧ (fs st !! model_file = None ∨ ∃ exc, new_SigMOS model_dir = inl exc)
  | Serving g =>
      is_Some (fs st !! model_file)
      ∧ (∃ eng, new_SigMOS model_dir = inr eng
                ∧ g_sigmos_estimator g = Some eng)
      ∧ g_model_dir g = Some model_dir
      ∧ status (health_check (g_sigmos_estimator g)) = 200%Z
  end.
Proof.
  intros model_dir model_file.
  unfold main, init_sigmos_model, init_sigmos_model_try.
  fold model_dir. fold model_file.
  destruct (fs st !! model_file) as [content|] eqn:Hfs; simpl; [|eauto].
  destruct (new_SigMOS model_dir) as [exc|eng] eqn:Hnew; simpl; eauto 10.
Qed.

(** X17. The formats [/info] and [/] advertise are the extensions the
    upload check accepts: a name passes [allowed_file] exactly when what
    follows its last dot, lowered, is in the advertised list. Both
    endpoints give the same list and the same size limit, 100 MB, whose
    byte count is [MAX_CONTENT_LENGTH]. *)
Theorem advertised_formats_are_accepted (g : globals float) (name : string) :
  set_iter ALLOWED_EXTENSIONS ≡ₚ elements ALLOWED_EXTENSIONS →
  (allowed_file name = inr true ↔
     ∃ ext, Str.after_last "."%char name = Some ext
            ∧ Str.lower ext ∈ info_supported_formats (service_info g))
  ∧ index_supported_formats index = info_supported_formats (service_info g)
  ∧ length (info_supported_formats (service_info g)) = 4%nat
  ∧ index_max_file_size_mb index = info_max_file_size_mb (service_info g)
  ∧ info_max_file_size_mb (service_info g) = 100%Z
  ∧ (info_max_file_size_mb (service_info g) * (1024 * 1024))%Z
    = MAX_CONTENT_LENGTH.
Proof.
  intros Hperm. split; [|split; [done|]; split; [by rewrite Hperm|done]].
  rewrite allowed_file_true. unfold has_allowed_extension. simpl.
  by setoid_rewrite Hperm; setoid_rewrite elem_of_elements.
Qed.

(** X18. The dimension labels of [/info] follow the keys of the display
    rendering: in every successful evaluation, the keys of [mos_scores],
    each rewritten from [name_KEY] to [name (KEY)], are the list
    [mos_dimensions], in the same order. *)
Theorem info_labels_follow_score_keys (g : globals float) est e path
    (st : state float) result st' :
  evaluate_audio_file est e path st = (inr result, st') →
  succeeded result →
  ∃ mos,
    dict_lookup result "mos_scores" = Some (VDict mos)
    ∧ label_of_key <$> keys mos = info_mos_dimensions (service_info g).
Proof.
  intros Hrun Hs. apply evaluate_audio_file_inv in Hrun.
  destruct (succeeded_inv _ _ _ _ _ _ Hrun Hs)
    as (? & ? & ? & ? & ? & ? & sc & _ & _ & _ & _ & _ & _ & -> & _).
  exists (mos_scores_of sc). split; [done|]. by vm_compute.
Qed.

End StartupFacts.

(** ** The command-line script and the test client *)

Section Scripts.

Context {float : Type} `{!Runtime float}.

Variable new_SigMOS : string → res (SigMOS float).

(** X19. The command-line script and the service agree: with the engine
    the script's constructor returns as the service's handle, the script
    returns scores for a path exactly when the service's evaluation of
    that path succeeds, the raw rendering then holds the script's scores,
    and both leave the same state, with the same call made on the
    engine. *)
Theorem cli_agrees_with_service (path model_dir : string) eng e
    (st : state float) :
  new_SigMOS model_dir = inr eng →
  ∃ r result st',
    Cli.test_audio_file new_SigMOS path model_dir st = (inr r, st')
    ∧ evaluate_audio_file (Some eng) e path st = (inr result, st')
    ∧ match r with
      | Some sc =>
          succeeded result
          ∧ dict_lookup result "raw_scores" = Some (VDict (raw_scores_of sc))
      | None => ¬ succeeded result
      end.
Proof.
  intros Hnew. unfold Cli.test_audio_file. rewrite Hnew.
  unfold evaluate_audio_file, try_except, evaluate_audio_file_try.
  unfold mbind, M_bind, bind, OsPath.exists_, sf_read_path, lift.
  simpl. destruct (fs st !! path) as [content|] eqn:Hfs; simpl.
  2: { by eexists _, _, _. }
  rewrite ?Hfs.
  destruct (sf_read content) as [exc|[audio sr]] eqn:Hread; simpl.
  { by eexists _, _, _. }
  unfold py_truediv. destruct (Z.eqb_spec sr 0) as [->|Hsr].
  { by eexists _, _, _. }
  destruct audio as [samples|frames]; simpl.
  - destruct (run eng (Arr1 samples) sr) as [exc|sc] eqn:Hrun;
      by eexists _, _, _.
  - destruct (mapM head frames) as [col|] eqn:Hcol; simpl.
    2: { by eexists _, _, _. }
    destruct (run eng (Arr1 col) sr) as [exc|sc] eqn:Hrun;
      by eexists _, _, _.
Qed.

End Scripts.

Section PrintScores.

Context {float : Type}.

Variable format_3f : float → string.

Lemma dict_lookup_Some {A : Type} (d : list (string * A)) k v :
  NoDup d.*1 → dict_lookup d k = Some v ↔ (k, v) ∈ d.
Proof.
  induction d as [|[k' v'] d IH]; simpl; intros Hnd.
  - split; [done|]. by intros ?%elem_of_nil.
  - apply NoDup_cons in Hnd as [Hk' Hnd].
    destruct (String.eqb_spec k' k) as [->|Hne].
    + split.
      * intros [= ->]. by left.
      * intros [[= ->]|Hin]%elem_of_cons; [done|].
        destruct Hk'. apply list_elem_of_fmap. by exists (k, v).
    + rewrite IH by done. split.
      * intros Hin. by right.
      * intros [[= -> ->]|Hin]%elem_of_cons; done.
Qed.

Lemma dict_lookup_perm {A : Type} (d1 d2 : list (string * A)) k :
  NoDup d1.*1 → d1 ≡ₚ d2 → dict_lookup d1 k = dict_lookup d2 k.
Proof.
  intros Hnd1 Hperm.
  assert (NoDup d2.*1) as Hnd2 by (by rewrite <- Hperm).
  destruct (dict_lookup d1 k) as [v1|] eqn:H1.
  - apply dict_lookup_Some in H1; [|done]. rewrite Hperm in H1.
    symmetry. by apply dict_lookup_Some.
  - destruct (dict_lookup d2 k) as [v2|] eqn:H2; [|done].
    apply dict_lookup_Some in H2; [|done]. rewrite <- Hperm in H2.
    apply dict_lookup_Some in H2; [|done]. congruence.
Qed.

(** X20. What [print_mos_scores] prints does not depend on the order of
    the keys in the object it is given: two objects with the same
    members print the same lines. *)
Theorem print_ignores_key_order (d1 d2 : list (string * float)) :
  NoDup d1.*1 →
  d1 ≡ₚ d2 →
  Pretty.print_mos_scores format_3f d1 = Pretty.print_mos_scores format_3f d2.
Proof.
  intros Hnd Hperm. unfold Pretty.print_mos_scores. f_equal.
  induction Pretty.score_order as [|[key name] l IH]; simpl; [done|].
  by rewrite IH, (dict_lookup_perm d1 d2 key Hnd Hperm).
Qed.

(** X21. Given the display rendering of a successful evaluation with its
    members in any order, [print_mos_scores] prints one line per
    dimension in the order OVRL, SIG, NOISE, LOUD, COL, DISC, REVERB,
    each with the engine's score rounded to 3 decimals. *)
Theorem print_of_served_scores `{!Runtime float} (sc : scores float)
    (d : list (string * float)) :
  d ≡ₚ Pretty.numbers_of (mos_scores_of sc) →
  Pretty.print_mos_scores format_3f d
  = [ "  MOS评分结果:";
      Pretty.score_line format_3f "整体质量 (MOS_OVRL)"
        (round_nd (MOS_OVRL sc) 3);
      Pretty.score_line format_3f "信号质量 (MOS_SIG)"
        (round_nd (MOS_SIG sc) 3);
      Pretty.score_line format_3f "噪声程度 (MOS_NOISE)"
        (round_nd (MOS_NOISE sc) 3);
      Pretty.score_line format_3f "响度 (MOS_LOUD)"
        (round_nd (MOS_LOUD sc) 3);
      Pretty.score_line format_3f "着色度 (MOS_COL)"
        (round_nd (MOS_COL sc) 3);
      Pretty.score_line format_3f "不连续性 (MOS_DISC)"
        (round_nd (MOS_DISC sc) 3);
      Pretty.score_line format_3f "混响 (MOS_REVERB)"
        (round_nd (MOS_REVERB sc) 3) ].
Proof.
  intros Hperm. unfold Pretty.print_mos_scores. f_equal.
  assert (NoDup (Pretty.numbers_of (mos_scores_of sc)).*1) as Hnd.
  { apply (bool_decide_unpack _). by vm_compute. }
  unfold Pretty.score_order. simpl.
  rewrite <- !(dict_lookup_perm _ d _ Hnd) by done.
  reflexivity.
Qed.

End PrintScores.

(** ** More theorems at work on concrete requests *)

Lemma undecodable_file_is_500_witness :
  ({[ "file_path" := "/data/bad.wav" ]} : gmap string string) !! "file_path"
  = Some "/data/bad.wav"
  ∧ fs Sample.st_odd !! "/data/bad.wav" = Some []
  ∧ sf_read (float := Q) []
    = inl (Exn "LibsndfileError" "Format not recognised.")
  ∧ post_evaluate_path (Some Exact.engine) Exact.req_env
      (Some {[ "file_path" := "/data/bad.wav" ]}) Sample.st_odd
    = (inr (Response
              (VDict [ ("success", VBool false);
                       ("error", VStr "Format not recognised.");
                       ("traceback",
                         VStr (format_exc
                                 (Exn "LibsndfileError"
                                    "Format not recognised."))) ]) 500),
       Sample.st_odd).
Proof.
  do 3 (split; [reflexivity|]).
  exact (undecodable_file_is_500 (Some Exact.engine) Exact.req_env
           {[ "file_path" := "/data/bad.wav" ]} Sample.st_odd "/data/bad.wav"
           [] _ eq_refl eq_refl eq_refl).
Defined.

Lemma engine_error_is_500_witness :
  ({[ "file_path" := "/data/m.wav" ]} : gmap string string) !! "file_path"
  = Some "/data/m.wav"
  ∧ fs Exact.st_disk !! "/data/m.wav" = Some Exact.mono
  ∧ sf_read (float := Q) Exact.mono = inr (Arr1 [1%Q; 2%Q; 3%Q], 8%Z)
  ∧ 8%Z ≠ 0%Z
  ∧ channel_reduction (Arr1 [1%Q; 2%Q; 3%Q]) (Arr1 [1%Q; 2%Q; 3%Q]) false
  ∧ Some Exact.failing_engine = Some Exact.failing_engine
  ∧ run Exact.failing_engine (Arr1 [1%Q; 2%Q; 3%Q]) 8
    = inl (Exn "ValueError" "audio too short")
  ∧ post_evaluate_path (Some Exact.failing_engine) Exact.req_env
      (Some {[ "file_path" := "/data/m.wav" ]}) Exact.st_disk
    = (inr (Response
              (VDict [ ("success", VBool false);
                       ("error", VStr "audio too short");
                       ("traceback",
                         VStr (format_exc
                                 (Exn "ValueError" "audio too short"))) ])
              500),
       State (fs Exact.st_disk)
         (engine_calls Exact.st_disk ++ [(Arr1 [1%Q; 2%Q; 3%Q], 8%Z)])).
Proof.
  assert (8%Z ≠ 0%Z) as Hsr by discriminate.
  do 3 (split; [reflexivity|]). split; [exact Hsr|].
  split; [constructor|]. do 2 (split; [reflexivity|]).
  exact (engine_error_is_500 (Some Exact.failing_engine) Exact.req_env
           {[ "file_path" := "/data/m.wav" ]} Exact.st_disk "/data/m.wav"
           Exact.mono (Arr1 [1%Q; 2%Q; 3%Q]) 8 (Arr1 [1%Q; 2%Q; 3%Q]) false
           Exact.failing_engine _
           eq_refl eq_refl eq_refl Hsr (KeepMono _) eq_refl eq_refl).
Defined.

Lemma empty_audio_reaches_engine_witness :
  fs Sample.st_odd !! "/data/empty.wav" = Some Sample.silent
  ∧ sf_read (float := Q) Sample.silent = inr (Arr1 [], 8%Z)
  ∧ Np.len (Arr1 ([] : list Q)) = 0%Z
  ∧ 8%Z ≠ 0%Z
  ∧ Some Exact.engine = Some Exact.engine
  ∧ ∃ result st',
      evaluate_audio_file (Some Exact.engine) Exact.req_env "/data/empty.wav"
        Sample.st_odd = (inr result, st')
      ∧ engine_calls st' = engine_calls Sample.st_odd ++ [(Arr1 [], 8%Z)]
      ∧ (∀ sc, run Exact.engine (Arr1 []) 8 = inr sc →
           succeeded result
           ∧ ∃ info, dict_lookup result "file_info" = Some (VDict info)
                     ∧ dict_lookup info "file_size_samples" = Some (VInt 0)).
Proof.
  assert (8%Z ≠ 0%Z) as Hsr by discriminate.
  do 3 (split; [reflexivity|]). split; [exact Hsr|]. split; [reflexivity|].
  exact (empty_audio_reaches_engine (Some Exact.engine) Exact.req_env
           "/data/empty.wav" Sample.st_odd Sample.silent (Arr1 []) 8
           Exact.engine eq_refl eq_refl eq_refl Hsr eq_refl).
Defined.

Lemma file_wav_allowed : has_allowed_extension (filename Exact.file_wav).
Proof. apply allowed_file_true. vm_compute. reflexivity. Defined.

Lemma file_wav_named : filename Exact.file_wav ≠ "".
Proof. discriminate. Defined.

Lemma failed_removal_leaves_upload_witness :
  Exact.files_wav !! "file" = Some Exact.file_wav
  ∧ filename Exact.file_wav ≠ ""
  ∧ has_allowed_extension (filename Exact.file_wav)
  ∧ save_outcome Sample.env_locked = SaveOk
  ∧ remove_error Sample.env_locked
    = Some (Exn "PermissionError" "[Errno 13] Permission denied")
  ∧ ∃ resp st',
      post_evaluate (Some Exact.engine) Sample.env_locked Exact.files_wav
        Exact.st0 = (inr resp, st')
      ∧ (status resp = 200%Z ∨ status resp = 500%Z)
      ∧ fs st' = <[upload_path Sample.env_locked Exact.file_wav
                   := stream Exact.file_wav]> (fs Exact.st0).
Proof.
  split; [reflexivity|]. split; [exact file_wav_named|].
  split; [exact file_wav_allowed|]. do 2 (split; [reflexivity|]).
  exact (failed_removal_leaves_upload (Some Exact.engine) Sample.env_locked
           Exact.files_wav Exact.st0 Exact.file_wav _
           eq_refl file_wav_named file_wav_allowed eq_refl eq_refl).
Defined.

Lemma save_failure_answer_witness :
  Exact.files_wav !! "file" = Some Exact.file_wav
  ∧ filename Exact.file_wav ≠ ""
  ∧ has_allowed_extension (filename Exact.file_wav)
  ∧ save_outcome Sample.env_full
    = SaveRaises (Exn "OSError" "[Errno 28] No space left on device") None
  ∧ ∃ resp st',
      post_evaluate (Some Exact.engine) Sample.env_full Exact.files_wav
        Exact.st0 = (inr resp, st')
      ∧ status resp = 500%Z
      ∧ body resp
        = VDict [ ("success", VBool false);
                  ("error",
                    VStr ("处理文件时出错: "
                          +:+ "[Errno 28] No space left on device")) ]
      ∧ engine_calls st' = engine_calls Exact.st0
      ∧ fs st' = fs Exact.st0.
Proof.
  split; [reflexivity|]. split; [exact file_wav_named|].
  split; [exact file_wav_allowed|]. split; [reflexivity|].
  exact (save_failure_answer (Some Exact.engine) Sample.env_full
           Exact.files_wav Exact.st0 Exact.file_wav _ None
           eq_refl file_wav_named file_wav_allowed eq_refl).
Defined.

Lemma upload_reports_stored_name_witness :
  Exact.files_wav !! "file" = Some Exact.file_wav
  ∧ filename Exact.file_wav ≠ ""
  ∧ has_allowed_extension (filename Exact.file_wav)
  ∧ save_outcome Exact.req_env = SaveOk
  ∧ Str.contains
      (uuid4 Exact.req_env +:+ "_"
       +:+ secure_filename (float := Q) (filename Exact.file_wav)) "/"
    = false
  ∧ ∃ resp st',
      post_evaluate (Some Exact.engine) Exact.req_env Exact.files_wav
        Exact.st0 = (inr resp, st')
      ∧ (status resp = 200%Z →
         ∃ result info,
           body resp = VDict result
           ∧ dict_lookup result "file_info" = Some (VDict info)
           ∧ dict_lookup info "filename"
             = Some (VStr (uuid4 Exact.req_env +:+ "_"
                           +:+ secure_filename (float := Q)
                                 (filename Exact.file_wav)))).
Proof.
  split; [reflexivity|]. split; [exact file_wav_named|].
  split; [exact file_wav_allowed|]. do 2 (split; [reflexivity|]).
  exact (upload_reports_stored_name (Some Exact.engine) Exact.req_env
           Exact.files_wav Exact.st0 Exact.file_wav
           eq_refl file_wav_named file_wav_allowed eq_refl eq_refl).
Defined.

(** The client sent [A b.WAV]; the response names the stored file. *)
Example stored_name_of_upload :
  ∃ resp st' result info,
    post_evaluate (Some Exact.engine) Exact.req_env Exact.files_wav Exact.st0
    = (inr resp, st')
    ∧ body resp = VDict result
    ∧ dict_lookup result "file_info" = Some (VDict info)
    ∧ dict_lookup info "filename" = Some (VStr "0b0c7f3e_Ab.WAV").
Proof. eexists _, _, _, _. split; [by vm_compute|]. repeat split. Qed.

Lemma advertised_formats_are_accepted_witness :
  set_iter (float := Q) ALLOWED_EXTENSIONS ≡ₚ elements ALLOWED_EXTENSIONS
  ∧ (allowed_file "a.wav" = inr true ↔
       ∃ ext, Str.after_last "."%char "a.wav" = Some ext
              ∧ Str.lower ext
                ∈ info_supported_formats
                    (service_info (float := Q) initial_globals))
  ∧ index_supported_formats (index (float := Q))
    = info_supported_formats (service_info (float := Q) initial_globals)
  ∧ length (info_supported_formats (service_info (float := Q) initial_globals))
    = 4%nat
  ∧ index_max_file_size_mb (index (float := Q))
    = info_max_file_size_mb (service_info (float := Q) initial_globals)
  ∧ info_max_file_size_mb (service_info (float := Q) initial_globals) = 100%Z
  ∧ (info_max_file_size_mb (service_info (float := Q) initial_globals)
     * (1024 * 1024))%Z = MAX_CONTENT_LENGTH.
Proof.
  split; [reflexivity|].
  exact (advertised_formats_are_accepted (float := Q) initial_globals "a.wav"
           (reflexivity _)).
Defined.

Lemma info_labels_follow_score_keys_witness :
  succeeded (Exact.result_of Exact.mono_run)
  ∧ ∃ mos,
      dict_lookup (Exact.result_of Exact.mono_run) "mos_scores"
      = Some (VDict mos)
      ∧ label_of_key <$> keys mos
        = info_mos_dimensions (service_info (float := Q) initial_globals).
Proof.
  split; [exact mono_run_succeeded|].
  exact (info_labels_follow_score_keys initial_globals (Some Exact.engine)
           Exact.req_env "/data/m.wav" Exact.st_disk _ _
           mono_run_eq mono_run_succeeded).
Defined.

Lemma cli_agrees_with_service_witness :
  Sample.new_engine "/srv/app/ICASSP2024/sigmos" = inr Exact.engine
  ∧ ∃ r result st',
      Cli.test_audio_file Sample.new_engine "/data/s.wav"
        "/srv/app/ICASSP2024/sigmos" Sample.st_server = (inr r, st')
      ∧ evaluate_audio_file (Some Exact.engine) Exact.req_env "/data/s.wav"
          Sample.st_server = (inr result, st')
      ∧ match r with
        | Some sc =>
            succeeded result
            ∧ dict_lookup result "raw_scores"
              = Some (VDict (raw_scores_of sc))
        | None => ¬ succeeded result
        end.
Proof.
  split; [reflexivity|].
  exact (cli_agrees_with_service Sample.new_engine "/data/s.wav"
           "/srv/app/ICASSP2024/sigmos" Exact.engine Exact.req_env
           Sample.st_server eq_refl).
Defined.

Lemma print_ignores_key_order_witness :
  NoDup [ ("混响_MOS_REVERB", Exact.div 35 10);
          ("整体质量_MOS_OVRL", Exact.div 3 1) ].*1
  ∧ [ ("混响_MOS_REVERB", Exact.div 35 10);
      ("整体质量_MOS_OVRL", Exact.div 3 1) ]
    ≡ₚ [ ("整体质量_MOS_OVRL", Exact.div 3 1);
         ("混响_MOS_REVERB", Exact.div 35 10) ]
  ∧ Pretty.print_mos_scores Sample.format_3f
      [ ("混响_MOS_REVERB", Exact.div 35 10);
        ("整体质量_MOS_OVRL", Exact.div 3 1) ]
    = Pretty.print_mos_scores Sample.format_3f
        [ ("整体质量_MOS_OVRL", Exact.div 3 1);
          ("混响_MOS_REVERB", Exact.div 35 10) ].
Proof.
  assert (NoDup [ ("混响_MOS_REVERB", Exact.div 35 10);
                  ("整体质量_MOS_OVRL", Exact.div 3 1) ].*1) as Hnd.
  { apply (bool_decide_unpack _). vm_compute. exact I. }
  split; [exact Hnd|]. split; [apply perm_swap|].
  exact (print_ignores_key_order Sample.format_3f _ _ Hnd (perm_swap _ _ _)).
Defined.

(** With only two of the scores given, two lines are printed, OVRL
    first. *)
Example print_two_scores :
  Pretty.print_mos_scores Sample.format_3f
    [ ("混响_MOS_REVERB", Exact.div 35 10);
      ("整体质量_MOS_OVRL", Exact.div 3 1) ]
  = [ "  MOS评分结果:";
      "    * 整体质量 (MOS_OVRL)     : 3.000";
      "    * 混响 (MOS_REVERB)     : 3.500" ].
Proof. by vm_compute. Qed.

Lemma print_of_served_scores_witness :
  Sample.received ≡ₚ Pretty.numbers_of (mos_scores_of Sample.some_scores)
  ∧ Pretty.print_mos_scores Sample.format_3f Sample.received
    = [ "  MOS评分结果:";
        Pretty.score_line Sample.format_3f "整体质量 (MOS_OVRL)"
          (round_nd (MOS_OVRL Sample.some_scores) 3);
        Pretty.score_line Sample.format_3f "信号质量 (MOS_SIG)"
          (round_nd (MOS_SIG Sample.some_scores) 3);
        Pretty.score_line Sample.format_3f "噪声程度 (MOS_NOISE)"
          (round_nd (MOS_NOISE Sample.some_scores) 3);
        Pretty.score_line Sample.format_3f "响度 (MOS_LOUD)"
          (round_nd (MOS_LOUD Sample.some_scores) 3);
        Pretty.score_line Sample.format_3f "着色度 (MOS_COL)"
          (round_nd (MOS_COL Sample.some_scores) 3);
        Pretty.score_line Sample.format_3f "不连续性 (MOS_DISC)"
          (round_nd (MOS_DISC Sample.some_scores) 3);
        Pretty.score_line Sample.format_3f "混响 (MOS_REVERB)"
          (round_nd (MOS_REVERB Sample.some_scores) 3) ].
Proof.
  split; [apply reverse_Permutation|].
  exact (print_of_served_scores Sample.format_3f Sample.some_scores
           Sample.received (reverse_Permutation _)).
Defined.

(** The lines printed for the scores above. *)
Example print_received :
  Pretty.print_mos_scores Sample.format_3f Sample.received
  = [ "  MOS评分结果:";
      "    * 整体质量 (MOS_OVRL)     : 3.123";
      "    * 信号质量 (MOS_SIG)      : 3.000";
      "    * 噪声程度 (MOS_NOISE)    : 4.000";
      "    * 响度 (MOS_LOUD)       : 3.000";
      "    * 着色度 (MOS_COL)       : 3.000";
      "    * 不连续性 (MOS_DISC)     : 3.000";
      "    * 混响 (MOS_REVERB)     : 3.500" ].
Proof. by vm_compute. Qed.

(** Start-up on a disk with the model file, and on one without. *)
Example main_serves :
  ∃ g, main "/srv/app" Sample.new_engine initial_globals Sample.st_server
       = Serving g
       ∧ g_model_dir g = Some "/srv/app/ICASSP2024/sigmos".
Proof. eexists. split; by vm_compute. Qed.

Example main_exits_without_model :
  main "/srv/app" Sample.new_engine initial_globals Exact.st0 = Exited 1.
Proof. by vm_compute. Qed.

Example main_exits_on_broken_model :
  main "/srv/app" Sample.broken_engine initial_globals Sample.st_server
  = Exited 1.
Proof. by vm_compute. Qed.

Lemma partial_save_leaves_artifact_witness :
  Exact.files_wav !! "file" = Some Exact.file_wav
  ∧ filename Exact.file_wav ≠ ""
  ∧ has_allowed_extension (filename Exact.file_wav)
  ∧ save_outcome Sample.env_partial
    = SaveRaises (Exn "OSError" "[Errno 28] No space left on device")
        (Some [Byte.x02])
  ∧ ∃ resp st',
      post_evaluate (Some Exact.engine) Sample.env_partial Exact.files_wav
        Exact.st0 = (inr resp, st')
      ∧ status resp = 500%Z
      ∧ fs st' !! upload_path Sample.env_partial Exact.file_wav
        = Some [Byte.x02]
      ∧ engine_calls st' = engine_calls Exact.st0.
Proof.
  split; [reflexivity|]. split; [exact file_wav_named|].
  split; [exact file_wav_allowed|]. split; [reflexivity|].
  exact (partial_save_leaves_artifact (Some Exact.engine) Sample.env_partial
           Exact.files_wav Exact.st0 Exact.file_wav _ _
           eq_refl file_wav_named file_wav_allowed eq_refl).
Defined.

(** The claim as worded fails on a post whose body does not parse as
    JSON, and on one whose content type is not JSON: the framework aborts
    [get_json()] with 400, or with 415, and writes its own error page,
    which is no JSON body of the failure shape. *)
Lemma error_page_outside_failure_shape :
  ¬ fails_in_shape Sample.fds (Some Exact.engine) Exact.req_env
      (GetJsonAborts 400) Exact.st0
  ∧ ¬ fails_in_shape Sample.fds (Some Exact.engine) Exact.req_env
        (GetJsonAborts 415) Exact.st0.
Proof.
  split; intros Hclaim.
  - destruct (Hclaim (ErrorPage 400) Exact.st0 eq_refl) as (resp & Hresp & _);
      [discriminate|]. discriminate Hresp.
  - destruct (Hclaim (ErrorPage 415) Exact.st0 eq_refl) as (resp & Hresp & _);
      [discriminate|]. discriminate Hresp.
Qed.

(** A body that is a string is searched for the text [file_path]; one
    that holds it passes the test of line 252 and fails at the indexing
    of line 258. *)
Example string_bodies :
  post_evaluate_path_request Sample.fds (Some Exact.engine) Exact.req_env
    (GetJson (JStr "no parameter")) Exact.st0
  = (inr (JsonAnswer (Response
                  (VDict [ ("success", VBool false);
                           ("error", VStr "请提供file_path参数") ]) 400)),
     Exact.st0)
  ∧ post_evaluate_path_request Sample.fds (Some Exact.engine) Exact.req_env
      (GetJson (JStr "my file_path")) Exact.st0
    = (inr (JsonAnswer internal_error), Exact.st0).
Proof. split; by vm_compute. Qed.

(** A [file_path] that is a number is taken for a file descriptor. *)
Example numeric_paths :
  (∃ st', post_evaluate_path_request Sample.fds (Some Exact.engine)
            Exact.req_env (GetJson (JObject {[ "file_path" := JInt 7 ]}))
            Exact.st0
          = (inr (JsonAnswer (Response
                          (VDict [ ("success", VBool false);
                                   ("error", VStr "文件不存在: 7") ]) 404)),
             st'))
  ∧ (∃ a st', post_evaluate_path_request Sample.fds (Some Exact.engine)
                Exact.req_env (GetJson (JObject {[ "file_path" := JInt 1 ]}))
                Exact.st0 = (inr a, st')
              ∧ answer_status a = 500%Z).
Proof. split; [eexists|eexists _, _; split]; by vm_compute. Qed.

(** A request over the size limit is answered by the handler for 413. *)
Example too_large_answer :
  post_evaluate_path_request Sample.fds (Some Exact.engine) Exact.req_env
    (GetJsonAborts 413) Exact.st0
  = (inr (JsonAnswer (Response
                  (VDict [ ("success", VBool false);
                           ("error", VStr "文件太大，最大允许 100 MB") ]) 413)),
     Exact.st0).
Proof. by vm_compute. Qed.
